(** * Telegram customer-support bot: the functions of [main.py], embedded
    and verified.

    Strings are Rocq [string]s, that is byte sequences holding the UTF-8
    encoding of the Python [str].  Values decoded from JSON are the
    inductive [pyval].  Calls that leave the process (the chat platform's
    HTTP API, the completion provider) are answered by a [world] and
    recorded in a trace of events, so that the number and the contents of
    the outbound calls of a handler can be stated.  Exceptions are values:
    a computation ends in [Ret] or in [Raise].  Logging has no effect on
    control flow and is left out. *)

From Stdlib Require Import String Ascii List ZArith Bool Lia PrimFloat.
From Stdlib Require Import DecimalString.
Import ListNotations.
Local Open Scope string_scope.
Local Open Scope Z_scope.

(** ** Python strings *)

Module PyStr.

(** [c.lower()] on one byte: the ASCII capitals move to their small
    letters; every other byte (the bytes of multi-byte code points
    included) stays.  Outside ASCII Python's [lower] yields an ASCII
    letter only for U+212A (to k) and U+0130 (to i followed by U+0307);
    no keyword of the FAQ table holds a k or ends in an i, so keyword
    search in the lower-cased text is not affected. *)
Definition lower_ascii (c : ascii) : ascii :=
  let n := nat_of_ascii c in
  if (Nat.leb 65 n && Nat.leb n 90)%bool then ascii_of_nat (n + 32) else c.

(** [s.lower()] *)
Fixpoint lower (s : string) : string :=
  match s with
  | EmptyString => EmptyString
  | String c t => String (lower_ascii c) (lower t)
  end.

(** [s.startswith(p)] *)
Fixpoint startswith (s p : string) {struct p} : bool :=
  match p, s with
  | EmptyString, _ => true
  | String _ _, EmptyString => false
  | String a p', String b s' => (Ascii.eqb a b && startswith s' p')%bool
  end.

(** [needle in hay] *)
Fixpoint contains (needle hay : string) : bool :=
  (startswith hay needle
   || match hay with
      | EmptyString => false
      | String _ t => contains needle t
      end)%bool.

(** [bool(s)] *)
Definition nonempty (s : string) : bool :=
  match s with EmptyString => false | String _ _ => true end.

Fixpoint of_bytes (l : list nat) : string :=
  match l with
  | [] => EmptyString
  | b :: l' => String (ascii_of_nat b) (of_bytes l')
  end.

(** The code points for which [str.isspace] holds, in UTF-8: U+0009 to
    U+000D, U+001C to U+001F, U+0020, U+0085, U+00A0, U+1680, U+2000 to
    U+200A, U+2028, U+2029, U+202F, U+205F, U+3000. *)
Definition WHITESPACE : list string :=
  map of_bytes
    [ [9]; [10]; [11]; [12]; [13]; [28]; [29]; [30]; [31]; [32];
      [194; 133]; [194; 160]; [225; 154; 128];
      [226; 128; 128]; [226; 128; 129]; [226; 128; 130]; [226; 128; 131];
      [226; 128; 132]; [226; 128; 133]; [226; 128; 134]; [226; 128; 135];
      [226; 128; 136]; [226; 128; 137]; [226; 128; 138];
      [226; 128; 168]; [226; 128; 169]; [226; 128; 175];
      [226; 129; 159]; [227; 128; 128] ]%nat.

Definition is_space (s : string) : bool :=
  existsb (String.eqb s) WHITESPACE.

(** [Some rest] when [s] is [p] followed by [rest]. *)
Fixpoint drop_prefix (p s : string) : option string :=
  match p, s with
  | EmptyString, _ => Some s
  | String _ _, EmptyString => None
  | String a p', String b s' =>
      if Ascii.eqb a b then drop_prefix p' s' else None
  end.

Fixpoint drop_any (ps : list string) (s : string) : option string :=
  match ps with
  | [] => None
  | p :: ps' =>
      match drop_prefix p s with
      | Some rest => Some rest
      | None => drop_any ps' s
      end
  end.

(** Leading white space goes, one code point for each unit of fuel. *)
Fixpoint lstrip_fuel (fuel : nat) (s : string) : string :=
  match fuel with
  | O => s
  | S fuel' =>
      match drop_any WHITESPACE s with
      | Some rest => lstrip_fuel fuel' rest
      | None => s
      end
  end.

Definition lstrip (s : string) : string := lstrip_fuel (String.length s) s.

(** Trailing white space goes: what is left of the tail is put back
    behind the head unless that gives one white-space code point. *)
Fixpoint rstrip (s : string) : string :=
  match s with
  | EmptyString => EmptyString
  | String c t =>
      let r := String c (rstrip t) in
      if is_space r then EmptyString else r
  end.

(** [s.strip()] *)
Definition strip (s : string) : string := rstrip (lstrip s).

(** [str(n)] for an integer. *)
Definition of_Z (n : Z) : string := NilZero.string_of_int (Z.to_int n).

End PyStr.

(** ** Python values and exceptions *)

#[local] Set Warnings "-register-all,-inexact-float".

(** What [json] decoding produces. A [PDict] lists its items in insertion
    order; its keys are distinct. *)
Inductive pyval : Type :=
| PNone
| PBool (b : bool)
| PInt (n : Z)
| PFloat (f : float)
| PStr (s : string)
| PList (items : list pyval)
| PDict (items : list (string * pyval)).

(** [bool(v)] *)
Definition truthy (v : pyval) : bool :=
  match v with
  | PNone => false
  | PBool b => b
  | PInt n => negb (n =? 0)
  | PFloat f => negb (PrimFloat.eqb f 0%float)
  | PStr s => PyStr.nonempty s
  | PList items => match items with [] => false | _ :: _ => true end
  | PDict items => match items with [] => false | _ :: _ => true end
  end.

(** [type(v).__name__] *)
Definition type_name (v : pyval) : string :=
  match v with
  | PNone => "NoneType"
  | PBool _ => "bool"
  | PInt _ => "int"
  | PFloat _ => "float"
  | PStr _ => "str"
  | PList _ => "list"
  | PDict _ => "dict"
  end.

(** The exception classes the handlers tell apart. Every exception of the
    model is an instance of [Exception]; [KeyboardInterrupt] and
    [SystemExit], which are not, come from the interpreter and not from the
    modelled calls. *)
Inductive exc_class : Type :=
| RequestException        (* requests.exceptions.RequestException and below *)
| AttributeError
| IndexError
| HTTPException (status_code : Z) (detail : string)   (* fastapi *)
| OtherException.

(** An exception with [str(e)]. *)
Record pyexc : Type := PyExc { exc_cls : exc_class; exc_str : string }.

Definition is_request_exception (e : pyexc) : bool :=
  match exc_cls e with RequestException => true | _ => false end.

Inductive outcome (A : Type) : Type :=
| Ret (a : A)
| Raise (e : pyexc).
Arguments Ret {A} a.
Arguments Raise {A} e.

Definition no_attribute (v : pyval) (attr : string) : pyexc :=
  PyExc AttributeError
    ("'" ++ type_name v ++ "' object has no attribute '" ++ attr ++ "'").

Fixpoint assoc (key : string) (items : list (string * pyval)) : option pyval :=
  match items with
  | [] => None
  | (k, v) :: rest => if String.eqb k key then Some v else assoc key rest
  end.

(** [v.get(key, default)]: only a dict has the method. *)
Definition py_get (v : pyval) (key : string) (default : pyval) : outcome pyval :=
  match v with
  | PDict items =>
      Ret (match assoc key items with Some x => x | None => default end)
  | _ => Raise (no_attribute v "get")
  end.

(** ** The world outside and the trace of calls *)

(** [requests.Response]: [json] is what the [json()] method gives. *)
Record Response : Type := {
  status_code : Z;
  reason : string;
  url : string;
  json : outcome pyval
}.

(** The completion provider's reply object, as far as it is read:
    [response.choices[0].message.content]. *)
Record ChatCompletionMessage : Type := { content : option string }.
Record Choice : Type := { message : ChatCompletionMessage }.
Record ChatCompletion : Type := { choices : list Choice }.

(** The keyword arguments of [client.chat.completions.create]; a message is
    its role and its content. *)
Record CompletionRequest : Type := {
  model : string;
  messages : list (string * string);
  max_tokens : Z;
  temperature : float
}.

(** One call that leaves the process. *)
Inductive event : Type :=
| HttpPost (url : string) (body : pyval) (timeout : Z)
| HttpGet (url : string) (timeout : Z)
| CompletionCreate (request : CompletionRequest).

Definition trace : Type := list event.

(** What the process does not decide: its configuration, the answers of
    the two remote services (each may depend on the calls made so far),
    and [str(v)] of a decoded value that is not a string. *)
Record world : Type := {
  BOT_TOKEN : string;
  requests_post : trace -> string -> pyval -> Z -> outcome Response;
  requests_get : trace -> string -> Z -> outcome Response;
  completions_create : trace -> CompletionRequest -> outcome ChatCompletion;
  builtin_str : pyval -> string
}.

(** A computation reads the world, extends the trace and returns or
    raises. *)
Definition M (A : Type) : Type := world -> trace -> outcome A * trace.

Definition ret {A} (a : A) : M A := fun _ tr => (Ret a, tr).

Definition raise {A} (e : pyexc) : M A := fun _ tr => (Raise e, tr).

Definition bind {A B} (m : M A) (k : A -> M B) : M B :=
  fun w tr =>
    match m w tr with
    | (Ret a, tr') => k a w tr'
    | (Raise e, tr') => (Raise e, tr')
    end.

Definition lift {A} (o : outcome A) : M A := fun _ tr => (o, tr).

(** [try: body except <class> as e: handler e]; an exception outside the
    class passes through. *)
Definition try_except {A} (body : M A) (caught : pyexc -> bool)
    (handler : pyexc -> M A) : M A :=
  fun w tr =>
    match body w tr with
    | (Ret a, tr') => (Ret a, tr')
    | (Raise e, tr') =>
        if caught e then handler e w tr' else (Raise e, tr')
    end.

(** [except Exception] *)
Definition any_exception (e : pyexc) : bool := true.

Declare Scope py_scope.
Delimit Scope py_scope with py.
Notation "x <- m ;; k" := (bind m (fun x => k))
  (at level 61, m at next level, right associativity) : py_scope.
Notation "m ;;; k" := (bind m (fun _ => k))
  (at level 61, right associativity) : py_scope.
Local Open Scope py_scope.

Definition post (url : string) (body : pyval) (timeout : Z) : M Response :=
  fun w tr => (requests_post w tr url body timeout, (tr ++ [HttpPost url body timeout])%list).

Definition get (url : string) (timeout : Z) : M Response :=
  fun w tr => (requests_get w tr url timeout, (tr ++ [HttpGet url timeout])%list).

Definition create (request : CompletionRequest) : M ChatCompletion :=
  fun w tr => (completions_create w tr request, (tr ++ [CompletionCreate request])%list).

(** [response.raise_for_status()]: an [HTTPError], which is a
    [RequestException], for a status from 400 to 599 and nothing
    otherwise. *)
Definition http_error (r : Response) : option pyexc :=
  if (400 <=? status_code r) && (status_code r <? 500) then
    Some (PyExc RequestException
            (PyStr.of_Z (status_code r) ++ " Client Error: " ++ reason r
             ++ " for url: " ++ url r))
  else if (500 <=? status_code r) && (status_code r <? 600) then
    Some (PyExc RequestException
            (PyStr.of_Z (status_code r) ++ " Server Error: " ++ reason r
             ++ " for url: " ++ url r))
  else None.

Definition raise_for_status (r : Response) : M unit :=
  match http_error r with
  | Some e => raise e
  | None => ret tt
  end.

(** The world a computation runs in. *)
Definition ask : M world := fun w tr => (Ret w, tr).

(** ** The program *)

(** The start of the module: both secrets are read from the environment
    ([os.getenv]), the bot token is tested first, and the import fails with
    a [ValueError] when one of them is unset or empty. *)
Definition load_credentials (getenv : string -> option string)
  : outcome (string * string) :=
  let BOT_TOKEN := getenv "BOT_TOKEN" in
  let OPENAI_API_KEY := getenv "OPENAI_API_KEY" in
  match BOT_TOKEN with
  | Some token =>
      if PyStr.nonempty token then
        match OPENAI_API_KEY with
        | Some key =>
            if PyStr.nonempty key then Ret (token, key)
            else Raise (PyExc OtherException
                          "OPENAI_API_KEY environment variable is not set")
        | None => Raise (PyExc OtherException
                           "OPENAI_API_KEY environment variable is not set")
        end
      else Raise (PyExc OtherException "BOT_TOKEN environment variable is not set")
  | None => Raise (PyExc OtherException "BOT_TOKEN environment variable is not set")
  end.

Definition TELEGRAM_API_URL (w : world) : string :=
  "https://api.telegram.org/bot" ++ BOT_TOKEN w.

(** [format(v, "")] inside an f-string. *)
Definition fmt (w : world) (v : pyval) : string :=
  match v with PStr s => s | _ => builtin_str w v end.

Definition FAQ_RESPONSES : list (string * string) :=
  [ ("hours",
     "Our business hours are Monday to Friday, 9 AM to 6 PM EST. We're closed on weekends and public holidays.");
    ("location",
     "We're located at 123 Main Street, Suite 100, New York, NY 10001. You can also reach us online 24/7!");
    ("contact",
     "You can contact us via:
📧 Email: support@company.com
📞 Phone: +1 (555) 123-4567
💬 This chat (24/7 AI support)");
    ("shipping",
     "We offer free shipping on orders over $50. Standard shipping takes 3-5 business days, and express shipping takes 1-2 business days.");
    ("returns",
     "We accept returns within 30 days of purchase. Items must be unused and in original packaging. Contact us to initiate a return.");
    ("payment",
     "We accept all major credit cards, PayPal, Apple Pay, and Google Pay. All transactions are secure and encrypted.")
  ].

(** The [for keyword, response in table.items()] loop of [check_faq]: the
    pairs are visited in insertion order and the first keyword found in the
    lower-cased message returns its response. *)
Fixpoint faq_loop (items : list (string * string)) (message_lower : string)
  : option string :=
  match items with
  | [] => None
  | (keyword, response) :: rest =>
      if PyStr.contains keyword message_lower then Some response
      else faq_loop rest message_lower
  end.

Definition check_faq (message_text : string) : option string :=
  let message_lower := PyStr.lower message_text in
  faq_loop FAQ_RESPONSES message_lower.

Definition SYSTEM_PROMPT : string :=
  "You are a helpful and friendly customer support agent. "
  ++ "Provide clear, concise, and professional responses to customer inquiries. "
  ++ "Be empathetic and solution-oriented. Keep responses under 200 words.".

Definition APOLOGY : string :=
  "I apologize, but I'm having trouble processing your request right now. Please try again in a moment or contact our support team directly.".

Definition completion_request (user_message : string) : CompletionRequest :=
  {| model := "gpt-3.5-turbo";
     messages := [("system", SYSTEM_PROMPT); ("user", user_message)];
     max_tokens := 300;
     temperature := 0.7%float |}.

(** [response.choices[0].message.content.strip()]: an [IndexError] when
    there is no choice, an [AttributeError] when the content is [None]. *)
Definition extract_reply (response : ChatCompletion) : outcome string :=
  match choices response with
  | [] => Raise (PyExc IndexError "list index out of range")
  | choice :: _ =>
      match content (message choice) with
      | None => Raise (no_attribute PNone "strip")
      | Some text => Ret (PyStr.strip text)
      end
  end.

Definition get_ai_response (user_message : string) : M string :=
  try_except
    (response <- create (completion_request user_message) ;;
     ai_reply <- lift (extract_reply response) ;;
     ret ai_reply)
    any_exception
    (fun e => ret APOLOGY).

Definition send_payload (chat_id : pyval) (text : string) : pyval :=
  PDict [("chat_id", chat_id); ("text", PStr text); ("parse_mode", PStr "HTML")].

Definition send_url (w : world) : string := TELEGRAM_API_URL w ++ "/sendMessage".

Definition send_telegram_message (chat_id : pyval) (text : string) : M bool :=
  w <- ask ;;
  let url := send_url w in
  let payload := send_payload chat_id text in
  try_except
    (response <- post url payload 10 ;;
     raise_for_status response ;;;
     ret true)
    is_request_exception
    (fun e => ret false).

Definition welcome_message (user_name : string) : string :=
  "👋 Hello " ++ user_name ++ "! Welcome to our customer support.

"
  ++ "I'm here to help you 24/7. You can ask me about:
"
  ++ "• Business hours
"
  ++ "• Location
"
  ++ "• Contact information
"
  ++ "• Shipping & returns
"
  ++ "• Payment options
"
  ++ "• Or anything else!

"
  ++ "How can I assist you today?".

(** [if faq_response:] is false for [None] and for an empty answer. *)
Definition answered (faq_response : option string) : option string :=
  match faq_response with
  | Some response => if PyStr.nonempty response then Some response else None
  | None => None
  end.

Definition process_message (message : pyval) : M unit :=
  w <- ask ;;
  chat <- lift (py_get message "chat" (PDict [])) ;;
  chat_id <- lift (py_get chat "id" PNone) ;;
  message_text <- lift (py_get message "text" (PStr "")) ;;
  sender <- lift (py_get message "from" (PDict [])) ;;
  user_name <- lift (py_get sender "first_name" (PStr "there")) ;;
  if negb (truthy chat_id) || negb (truthy message_text) then ret tt
  else
    match message_text with
    | PStr text =>
        if PyStr.startswith text "/start" then
          send_telegram_message chat_id (welcome_message (fmt w user_name)) ;;;
          ret tt
        else
          match answered (check_faq text) with
          | Some faq_response =>
              send_telegram_message chat_id faq_response ;;; ret tt
          | None =>
              ai_response <- get_ai_response text ;;
              send_telegram_message chat_id ai_response ;;; ret tt
          end
    | _ => raise (no_attribute message_text "startswith")
    end.

(** *** The endpoints *)

(** [HTTPException(status_code=..., detail=...)] *)
Definition http_exception (status : Z) (detail : string) : pyexc :=
  PyExc (HTTPException status detail) (PyStr.of_Z status ++ ": " ++ detail).

Definition read_root : pyval :=
  PDict [("status", PStr "online");
         ("service", PStr "Telegram Customer Support Bot");
         ("version", PStr "1.0.0")].

Definition set_webhook_url (w : world) : string :=
  TELEGRAM_API_URL w ++ "/setWebhook".

Definition set_webhook_payload (webhook_url : string) : pyval :=
  PDict [("url", PStr webhook_url)].

Definition set_webhook (webhook_url : string) : M pyval :=
  w <- ask ;;
  let url := set_webhook_url w in
  let payload := set_webhook_payload webhook_url in
  try_except
    (response <- post url payload 10 ;;
     raise_for_status response ;;;
     result <- lift (json response) ;;
     ret (PDict [("success", PBool true);
                 ("message", PStr "Webhook set successfully");
                 ("webhook_url", PStr webhook_url);
                 ("telegram_response", result)]))
    is_request_exception
    (fun e =>
       raise (http_exception 500 ("Failed to set webhook: " ++ exc_str e))).

(** The incoming request, as far as it is read: [await request.json()]. *)
Record Request : Type := { request_json : outcome pyval }.

Definition webhook (request : Request) : M pyval :=
  try_except
    (update_data <- lift (request_json request) ;;
     message <- lift (py_get update_data "message" PNone) ;;
     (if truthy message then process_message message else ret tt) ;;;
     ret (PDict [("status", PStr "ok")]))
    any_exception
    (fun e => ret (PDict [("status", PStr "error"); ("message", PStr (exc_str e))])).

Definition get_webhook_info : M pyval :=
  w <- ask ;;
  let url := TELEGRAM_API_URL w ++ "/getWebhookInfo" in
  try_except
    (response <- get url 10 ;;
     raise_for_status response ;;;
     result <- lift (json response) ;;
     webhook_info <- lift (py_get result "result" (PDict [])) ;;
     ret (PDict [("success", PBool true); ("webhook_info", webhook_info)]))
    is_request_exception
    (fun e =>
       raise (http_exception 500 ("Failed to get webhook info: " ++ exc_str e))).

(** What the framework answers for a handler's outcome: status 200 with the
    returned value as body, when the value can be written as JSON; for an
    [HTTPException] its status with the detail; status 500 for any other
    exception. The body is written with [allow_nan=False]: a returned value
    that holds an infinite float or a NaN makes the writer raise, which is
    answered like any other exception. *)
Record HttpResponse : Type := { http_status : Z; http_body : pyval }.

(** No float in [v] is infinite or a NaN. *)
Fixpoint json_compliant (v : pyval) : bool :=
  match v with
  | PFloat f => PrimFloat.is_finite f
  | PList items => forallb json_compliant items
  | PDict items => forallb (fun item => json_compliant (snd item)) items
  | _ => true
  end.

Definition respond (o : outcome pyval) : HttpResponse :=
  match o with
  | Ret v =>
      if json_compliant v then {| http_status := 200; http_body := v |}
      else {| http_status := 500; http_body := PStr "Internal Server Error" |}
  | Raise e =>
      match exc_cls e with
      | HTTPException status detail =>
          {| http_status := status; http_body := PDict [("detail", PStr detail)] |}
      | _ => {| http_status := 500; http_body := PStr "Internal Server Error" |}
      end
  end.

(** ** Sample worlds *)

Module Sample.

Definition ok_response (u : string) : Response :=
  {| status_code := 200; reason := "OK"; url := u;
     json := Ret (PDict [("ok", PBool true); ("result", PBool true);
                         ("description", PStr "Webhook was set")]) |}.

Definition reply_with (text : option string) : ChatCompletion :=
  {| choices := [ {| message := {| content := text |} |} ] |}.

(** [str] of the values whose text is plain. *)
Definition plain_str (v : pyval) : string :=
  match v with
  | PNone => "None"
  | PBool true => "True"
  | PBool false => "False"
  | PInt n => PyStr.of_Z n
  | _ => "<object>"
  end.

(** Both services answer. *)
Definition online : world :=
  {| BOT_TOKEN := "123456:TEST";
     requests_post := fun _ u _ _ => Ret (ok_response u);
     requests_get := fun _ u _ => Ret (ok_response u);
     completions_create := fun _ _ =>
       Ret (reply_with (Some "  Please share your order number.
"));
     builtin_str := plain_str |}.

(** Neither service can be reached. *)
Definition offline : world :=
  {| BOT_TOKEN := "123456:TEST";
     requests_post := fun _ _ _ _ =>
       Raise (PyExc RequestException "Connection refused");
     requests_get := fun _ _ _ =>
       Raise (PyExc RequestException "Connection refused");
     completions_create := fun _ _ =>
       Raise (PyExc OtherException "Request timed out.");
     builtin_str := plain_str |}.

(** The platform answers every call with the given status line and a
    JSON body. *)
Definition answering (status : Z) (why : string) : world :=
  {| BOT_TOKEN := "123456:TEST";
     requests_post := fun _ u _ _ =>
       Ret {| status_code := status; reason := why; url := u;
              json := Ret (PDict [("ok", PBool false)]) |};
     requests_get := fun _ u _ =>
       Ret {| status_code := status; reason := why; url := u;
              json := Ret (PDict [("ok", PBool false)]) |};
     completions_create := fun _ _ => Ret (reply_with (Some "Hello!"));
     builtin_str := plain_str |}.

(** [{"chat": {"id": id}, "text": text, "from": {"first_name": name}}] *)
Definition message_of (id : pyval) (text name : string) : pyval :=
  PDict [("chat", PDict [("id", id)]);
         ("text", PStr text);
         ("from", PDict [("first_name", PStr name)])].

End Sample.

(** ** Vocabulary of the statements *)

(** [keyword] occurs in [text] when case is ignored: a stretch of [text]
    and [keyword] are the same once both are lower-cased. *)
Definition substring_ci (keyword text : string) : Prop :=
  exists pre mid post,
    text = pre ++ mid ++ post /\ PyStr.lower mid = PyStr.lower keyword.

(** A run of white-space code points. *)
Inductive spaces : string -> Prop :=
| spaces_nil : spaces ""
| spaces_cons (t s : string) :
    In t PyStr.WHITESPACE -> spaces s -> spaces (t ++ s).

(** The value under [key] of an object. *)
Definition field (key : string) (v : pyval) : option pyval :=
  match v with
  | PDict items => assoc key items
  | _ => None
  end.

(** [chat.id], [text] and [from.first_name] of a message, where present. *)
Definition chat_id_of (message : pyval) : option pyval :=
  match field "chat" message with
  | Some chat => field "id" chat
  | None => None
  end.

Definition text_of (message : pyval) : option pyval := field "text" message.

Definition first_name_of (message : pyval) : option pyval :=
  match field "from" message with
  | Some sender => field "first_name" sender
  | None => None
  end.

Definition is_object (v : pyval) : bool :=
  match v with PDict _ => true | _ => false end.

(** A message record: an object whose [chat] and [from], when present,
    are objects. *)
Definition message_record (message : pyval) : bool :=
  is_object message
  && match field "chat" message with Some chat => is_object chat | None => true end
  && match field "from" message with Some sender => is_object sender | None => true end.

(** The values the guard of [process_message] tests: what the two
    lookups give, defaults included. *)
Definition chat_id_value (message : pyval) : pyval :=
  match chat_id_of message with Some v => v | None => PNone end.

Definition text_value (message : pyval) : pyval :=
  match text_of message with Some v => v | None => PStr "" end.

(** What [get_ai_response] makes of the provider's answer. *)
Definition reply_or_apology (answer : outcome ChatCompletion) : string :=
  match answer with
  | Ret response =>
      match extract_reply response with
      | Ret text => text
      | Raise _ => APOLOGY
      end
  | Raise _ => APOLOGY
  end.

(** The sender's name as the greeting shows it. *)
Definition display_name (w : world) (message : pyval) : string :=
  fmt w (match first_name_of message with Some name => name | None => PStr "there" end).

(** The calls to sendMessage and to the completion provider in a trace. *)
Definition is_send (w : world) (ev : event) : bool :=
  match ev with
  | HttpPost u _ _ => String.eqb u (send_url w)
  | _ => false
  end.

Definition is_completion (ev : event) : bool :=
  match ev with
  | CompletionCreate _ => true
  | _ => false
  end.

Definition sends (w : world) (evs : trace) : nat := length (filter (is_send w) evs).

Definition completions (evs : trace) : nat := length (filter is_completion evs).

(** A response whose status is from 200 to 299. *)
Definition is_2xx (r : Response) : bool :=
  (200 <=? status_code r) && (status_code r <? 300).

(** A response for which [raise_for_status] raises: status 400 to 599. *)
Definition is_4xx_5xx (r : Response) : bool :=
  (400 <=? status_code r) && (status_code r <? 600).

(** The keywords in the order the table was written. *)
Definition FAQ_KEYWORDS : list string :=
  ["hours"; "location"; "contact"; "shipping"; "returns"; "payment"].

(** The two bodies of the webhook receiver. *)
Definition webhook_ok : pyval := PDict [("status", PStr "ok")].

Definition webhook_error (e : pyexc) : pyval :=
  PDict [("status", PStr "error"); ("message", PStr (exc_str e))].

(** Every call to the platform that raises, raises a [RequestException]:
    what [requests] promises for connection failures and timeouts. *)
Definition post_raises_request_exceptions (w : world) : Prop :=
  forall tr u body timeout e,
    requests_post w tr u body timeout = Raise e ->
    is_request_exception e = true.

(** A call of [process_message] on [message]: a send to the chat of the
    message, or a completion request for its text. *)
Definition call_of (w : world) (message : pyval) (ev : event) : Prop :=
  match ev with
  | HttpPost u body timeout =>
      u = send_url w /\ timeout = 10 /\
      exists text, body = send_payload (chat_id_value message) text
  | HttpGet _ _ => False
  | CompletionCreate request =>
      exists text,
        text_value message = PStr text /\ request = completion_request text
  end.

(** The answer of the framework to an exception it does not know. *)
Definition internal_server_error : HttpResponse :=
  {| http_status := 500; http_body := PStr "Internal Server Error" |}.

(** An environment as a list of settings. *)
Fixpoint getenv_of (settings : list (string * string)) (name : string)
  : option string :=
  match settings with
  | [] => None
  | (n, v) :: rest => if String.eqb n name then Some v else getenv_of rest name
  end.

(** * Properties *)

(** ** Strings *)

Module PyStrFacts.
Import PyStr.

Lemma lower_app (a b : string) : lower (a ++ b) = lower a ++ lower b.
Proof. induction a as [|c a IH]; simpl; [reflexivity | now rewrite IH]. Qed.

Lemma lower_app_inv (t a b : string) :
  lower t = a ++ b ->
  exists ta tb, t = ta ++ tb /\ lower ta = a /\ lower tb = b.
Proof.
  revert t; induction a as [|c a IH]; intros t H.
  - exists "", t. simpl in *. auto.
  - destruct t as [|d t]; simpl in H; [discriminate|].
    injection H as Hc Ht.
    destruct (IH t Ht) as (ta & tb & -> & Ha & Hb).
    exists (String d ta), tb. simpl. now rewrite Hc, Ha, Hb.
Qed.

Lemma startswith_iff (s p : string) :
  startswith s p = true <-> exists rest, s = p ++ rest.
Proof.
  revert s; induction p as [|a p IH]; intros s; simpl.
  - split; [exists s; reflexivity | reflexivity].
  - destruct s as [|b s].
    + split; [discriminate | intros [r Hr]; discriminate].
    + rewrite andb_true_iff, Ascii.eqb_eq, IH. split.
      * intros [-> [r ->]]. now exists r.
      * intros [r Hr]. injection Hr as -> ->. split; [reflexivity | now exists r].
Qed.

Lemma contains_iff (needle hay : string) :
  contains needle hay = true <->
  exists pre post, hay = pre ++ needle ++ post.
Proof.
  induction hay as [|c hay IH].
  - simpl. rewrite orb_false_r, startswith_iff. split.
    + intros [r Hr]. now exists "", r.
    + intros (pre & post & H). destruct pre; [now exists post | discriminate].
  - cbn [contains]. rewrite orb_true_iff, startswith_iff, IH. split.
    + intros [[r Hr] | (pre & post & ->)].
      * now exists "", r.
      * now exists (String c pre), post.
    + intros (pre & post & H). destruct pre as [|d pre].
      * left. now exists post.
      * right. injection H as _ ->. now exists pre, post.
Qed.

Lemma append_assoc (a b c : string) : (a ++ b) ++ c = a ++ b ++ c.
Proof. induction a as [|x a IH]; simpl; [reflexivity | now rewrite IH]. Qed.

Lemma append_nil_r (a : string) : a ++ "" = a.
Proof. induction a as [|x a IH]; simpl; [reflexivity | now rewrite IH]. Qed.

Lemma append_length (a b : string) :
  String.length (a ++ b) = (String.length a + String.length b)%nat.
Proof. induction a as [|x a IH]; simpl; [reflexivity | now rewrite IH]. Qed.

Lemma spaces_app (a b : string) : spaces a -> spaces b -> spaces (a ++ b).
Proof.
  induction 1 as [|t s Ht Hs IH]; intros Hb; [exact Hb|].
  rewrite append_assoc. constructor; auto.
Qed.

Lemma is_space_iff (s : string) : is_space s = true <-> In s WHITESPACE.
Proof.
  unfold is_space. rewrite existsb_exists. split.
  - intros (t & Hin & Heq). apply String.eqb_eq in Heq. now subst.
  - intros Hin. exists s. split; [exact Hin | apply String.eqb_refl].
Qed.

Lemma space_nonempty (t : string) : In t WHITESPACE -> nonempty t = true.
Proof.
  assert (H : forallb nonempty WHITESPACE = true) by reflexivity.
  rewrite forallb_forall in H. apply H.
Qed.

Lemma drop_prefix_iff (p s rest : string) :
  drop_prefix p s = Some rest <-> s = p ++ rest.
Proof.
  revert s; induction p as [|a p IH]; intros s; simpl.
  - split; [now intros [= ->] | now intros ->].
  - destruct s as [|b s]; [split; discriminate|].
    destruct (Ascii.eqb a b) eqn:E.
    + apply Ascii.eqb_eq in E. subst b. rewrite IH.
      split; [now intros -> | now intros [= ->]].
    + split; [discriminate|]. intros [= <- _].
      now rewrite Ascii.eqb_refl in E.
Qed.

Lemma drop_any_some (ps : list string) (s rest : string) :
  drop_any ps s = Some rest -> exists p, In p ps /\ s = p ++ rest.
Proof.
  induction ps as [|p ps IH]; simpl; [discriminate|].
  destruct (drop_prefix p s) as [r|] eqn:E.
  - intros [= <-]. apply drop_prefix_iff in E. eauto.
  - intros H. destruct (IH H) as (q & Hq & Hs). eauto.
Qed.

Lemma drop_any_none (ps : list string) (s : string) :
  drop_any ps s = None -> forall p x, In p ps -> s <> p ++ x.
Proof.
  induction ps as [|p ps IH]; simpl; [intros _ q x []|].
  destruct (drop_prefix p s) as [r|] eqn:E; [discriminate|].
  intros H q x [<- | Hq] Hs.
  - apply drop_prefix_iff in Hs. congruence.
  - exact (IH H q x Hq Hs).
Qed.

Lemma lstrip_fuel_split (fuel : nat) (s : string) :
  exists l, spaces l /\ s = l ++ lstrip_fuel fuel s.
Proof.
  revert s; induction fuel as [|fuel IH]; intros s; cbn [lstrip_fuel].
  - exists "". split; [constructor | reflexivity].
  - destruct (drop_any WHITESPACE s) as [rest|] eqn:E.
    + destruct (drop_any_some _ _ _ E) as (t & Ht & ->).
      destruct (IH rest) as (l & Hl & Hrest).
      exists (t ++ l). split; [now constructor|].
      rewrite append_assoc. now rewrite <- Hrest.
    + exists "". split; [constructor | reflexivity].
Qed.

Lemma lstrip_fuel_done (fuel : nat) (s : string) :
  (String.length s <= fuel)%nat ->
  drop_any WHITESPACE (lstrip_fuel fuel s) = None.
Proof.
  revert s; induction fuel as [|fuel IH]; intros s Hlen; cbn [lstrip_fuel].
  - destruct s; [reflexivity | simpl in Hlen; lia].
  - destruct (drop_any WHITESPACE s) as [rest|] eqn:E; [|exact E].
    destruct (drop_any_some _ _ _ E) as (t & Ht & ->).
    apply IH. rewrite append_length in Hlen.
    pose proof (space_nonempty t Ht) as Hne.
    destruct t; [discriminate | simpl in Hlen; lia].
Qed.

Lemma rstrip_split (s : string) : exists r, spaces r /\ s = rstrip s ++ r.
Proof.
  induction s as [|c s (r & Hr & Hs)]; simpl.
  - exists "". split; [constructor | reflexivity].
  - destruct (is_space (String c (rstrip s))) eqn:E.
    + exists (String c (rstrip s) ++ r). split.
      * constructor; [now apply is_space_iff | exact Hr].
      * simpl. now rewrite <- Hs.
    + exists r. split; [exact Hr | simpl; now rewrite <- Hs].
Qed.

Lemma rstrip_done (s : string) :
  forall t x, In t WHITESPACE -> rstrip s <> x ++ t.
Proof.
  induction s as [|c s IH]; intros t x Ht; simpl.
  - pose proof (space_nonempty t Ht). destruct x, t; discriminate.
  - destruct (is_space (String c (rstrip s))) eqn:E.
    + pose proof (space_nonempty t Ht). destruct x, t; discriminate.
    + destruct x as [|d x]; simpl.
      * intros Heq. rewrite Heq in E.
        apply is_space_iff in Ht. congruence.
      * intros [= _ Heq]. exact (IH t x Ht Heq).
Qed.

(** [strip] takes a run of white space off each end and leaves a text
    that neither begins nor ends with a white-space code point. *)
Lemma strip_spec (s : string) :
  exists l r,
    s = l ++ strip s ++ r /\ spaces l /\ spaces r /\
    (forall t x, In t WHITESPACE -> strip s <> t ++ x) /\
    (forall t x, In t WHITESPACE -> strip s <> x ++ t).
Proof.
  unfold strip, lstrip.
  destruct (lstrip_fuel_split (String.length s) s) as (l & Hl & Hs).
  pose proof (lstrip_fuel_done (String.length s) s (le_n _)) as Hdone.
  set (u := lstrip_fuel (String.length s) s) in *.
  destruct (rstrip_split u) as (r & Hr & Hu).
  exists l, r. repeat split; [congruence | exact Hl | exact Hr | | apply rstrip_done].
  intros t x Ht Heq.
  apply (drop_any_none _ _ Hdone t (x ++ r) Ht).
  rewrite Hu, Heq. apply append_assoc.
Qed.

End PyStrFacts.

(** ** The FAQ matcher *)

Section FaqLoop.
Import PyStr PyStrFacts.

Lemma contains_lower_iff (keyword text : string) :
  lower keyword = keyword ->
  contains keyword (lower text) = true <-> substring_ci keyword text.
Proof.
  intros Hk. rewrite contains_iff. unfold substring_ci. split.
  - intros (pre & post & H).
    destruct (lower_app_inv _ _ _ H) as (tp & rest & -> & Hp & Hrest).
    destruct (lower_app_inv _ _ _ Hrest) as (tm & tq & -> & Hm & Hq).
    exists tp, tm, tq. split; [reflexivity | congruence].
  - intros (pre & mid & post & -> & Hm).
    exists (lower pre), (lower post).
    now rewrite !lower_app, Hm, Hk.
Qed.

(** The loop returns the response at the first position whose keyword
    is found. *)
Lemma faq_loop_first (items : list (string * string)) (m : string) :
  forall (i : nat) (keyword response : string),
    nth_error items i = Some (keyword, response) ->
    contains keyword m = true ->
    (forall j k r, (j < i)%nat -> nth_error items j = Some (k, r) ->
                   contains k m = false) ->
    faq_loop items m = Some response.
Proof.
  induction items as [|[k0 r0] rest IH]; intros i keyword response Hi Hin Hbefore.
  - destruct i; discriminate.
  - destruct i as [|i]; simpl in *.
    + injection Hi as -> ->. now rewrite Hin.
    + rewrite (Hbefore 0%nat k0 r0); [|lia|reflexivity].
      apply (IH i keyword response Hi Hin).
      intros j k r Hj Hnth. apply (Hbefore (S j) k r); [lia | exact Hnth].
Qed.

(** What the loop returned, read backwards. *)
Lemma faq_loop_inv (items : list (string * string)) (m : string) :
  match faq_loop items m with
  | Some response =>
      exists i keyword,
        nth_error items i = Some (keyword, response) /\
        contains keyword m = true /\
        (forall j k r, (j < i)%nat -> nth_error items j = Some (k, r) ->
                       contains k m = false)
  | None => forall k r, In (k, r) items -> contains k m = false
  end.
Proof.
  induction items as [|[k0 r0] rest IH]; simpl.
  - intros k r [].
  - destruct (contains k0 m) eqn:E.
    + exists 0%nat, k0. repeat split; [exact E | intros j k r Hj; lia].
    + destruct (faq_loop rest m) as [response|].
      * destruct IH as (i & keyword & Hi & Hin & Hbefore).
        exists (S i), keyword. repeat split; [exact Hi | exact Hin |].
        intros [|j] k r Hj Hnth; simpl in Hnth.
        -- now injection Hnth as <- _.
        -- apply (Hbefore j k r); [lia | exact Hnth].
      * intros k r [Heq | Hin]; [now injection Heq as <- _ | eauto].
Qed.

Lemma keywords_lower_case (keyword response : string) :
  In (keyword, response) FAQ_RESPONSES -> lower keyword = keyword.
Proof.
  simpl. intros H.
  repeat (destruct H as [H | H]; [now injection H as <- _ |]).
  destruct H.
Qed.

Lemma keywords_of_table : map fst FAQ_RESPONSES = FAQ_KEYWORDS.
Proof. reflexivity. Qed.

Lemma response_of_keyword (keyword r1 r2 : string) :
  In (keyword, r1) FAQ_RESPONSES -> In (keyword, r2) FAQ_RESPONSES -> r1 = r2.
Proof.
  simpl. intros H1 H2.
  repeat (destruct H1 as [H1 | H1]; [injection H1 as <- <- |]); try destruct H1;
    repeat (destruct H2 as [H2 | H2];
            [first [discriminate H2 | now injection H2 as <-] |]);
    destruct H2.
Qed.

(** [check_faq] decides by case-insensitive occurrence. *)
Lemma check_faq_inv (message_text : string) :
  match check_faq message_text with
  | Some response =>
      exists i keyword,
        nth_error FAQ_RESPONSES i = Some (keyword, response) /\
        substring_ci keyword message_text /\
        (forall j k r, (j < i)%nat -> nth_error FAQ_RESPONSES j = Some (k, r) ->
                       ~ substring_ci k message_text)
  | None =>
      forall k r, In (k, r) FAQ_RESPONSES -> ~ substring_ci k message_text
  end.
Proof.
  unfold check_faq.
  pose proof (faq_loop_inv FAQ_RESPONSES (lower message_text)) as H.
  destruct (faq_loop FAQ_RESPONSES (lower message_text)) as [response|].
  - destruct H as (i & keyword & Hi & Hin & Hbefore).
    exists i, keyword. repeat split; [exact Hi | |].
    + apply contains_lower_iff; [|exact Hin].
      eapply keywords_lower_case, nth_error_In, Hi.
    + intros j k r Hj Hnth Hci.
      apply contains_lower_iff in Hci;
        [|eapply keywords_lower_case, nth_error_In, Hnth].
      rewrite (Hbefore j k r Hj Hnth) in Hci. discriminate.
  - intros k r Hin Hci.
    apply contains_lower_iff in Hci; [|eapply keywords_lower_case, Hin].
    rewrite (H k r Hin) in Hci. discriminate.
Qed.

End FaqLoop.

(** C1. A message in which some configured keyword occurs, case ignored,
    gets the configured answer of a keyword that occurs in it, and exactly
    that keyword's answer when it is the only one occurring; a message in
    which no configured keyword occurs, the empty message among them, gets
    none. *)
Theorem check_faq_answer_or_none (message_text : string) :
  ((exists keyword response,
       In (keyword, response) FAQ_RESPONSES /\ substring_ci keyword message_text) ->
   exists keyword response,
     In (keyword, response) FAQ_RESPONSES /\
     substring_ci keyword message_text /\
     check_faq message_text = Some response)
  /\
  (forall keyword response,
      In (keyword, response) FAQ_RESPONSES ->
      substring_ci keyword message_text ->
      (forall k r, In (k, r) FAQ_RESPONSES -> substring_ci k message_text ->
                   k = keyword) ->
      check_faq message_text = Some response)
  /\
  ((forall keyword response,
       In (keyword, response) FAQ_RESPONSES -> ~ substring_ci keyword message_text) ->
   check_faq message_text = None)
  /\
  (message_text = "" -> check_faq message_text = None).
Proof.
  pose proof (check_faq_inv message_text) as Hinv.
  destruct (check_faq message_text) as [answer|] eqn:E.
  - destruct Hinv as (i & k0 & Hi & Hci & _).
    pose proof (nth_error_In _ _ Hi) as Hin0.
    repeat split.
    + intros _. exists k0, answer. auto.
    + intros keyword response Hin Hocc Honly.
      f_equal. rewrite (Honly k0 answer Hin0 Hci) in Hin0.
      exact (response_of_keyword _ _ _ Hin0 Hin).
    + intros Hnone. destruct (Hnone k0 answer Hin0 Hci).
    + intros ->. discriminate E.
  - repeat split.
    + intros (keyword & response & Hin & Hocc). destruct (Hinv _ _ Hin Hocc).
    + intros keyword response Hin Hocc _. destruct (Hinv _ _ Hin Hocc).
Qed.

(** The message of the specification's example holds one keyword, in
    capitals, and gets the answer about the hours. *)
Lemma check_faq_answer_or_none_hours :
  check_faq "What are your HOURS?"
  = Some "Our business hours are Monday to Friday, 9 AM to 6 PM EST. We're closed on weekends and public holidays.".
Proof.
  apply (check_faq_answer_or_none "What are your HOURS?") with (keyword := "hours").
  - simpl. auto.
  - exists "What are your ", "HOURS", "?". split; reflexivity.
  - intros k r Hin Hocc.
    apply contains_lower_iff in Hocc; [|exact (keywords_lower_case _ _ Hin)].
    simpl in Hin.
    repeat (destruct Hin as [Hin | Hin];
            [injection Hin as <- <-;
             first [reflexivity | vm_compute in Hocc; discriminate Hocc] |]).
    destruct Hin.
Defined.

(** C2. When the keyword at position [i] of the table occurs in the
    message and no keyword at an earlier position does, the answer is the
    one at position [i], wherever in the message the keywords stand; the
    positions are those of hours, location, contact, shipping, returns,
    payment. *)
Theorem check_faq_table_order (message_text : string) (i : nat)
    (keyword response : string) :
  nth_error FAQ_RESPONSES i = Some (keyword, response) ->
  substring_ci keyword message_text ->
  (forall j k r, (j < i)%nat -> nth_error FAQ_RESPONSES j = Some (k, r) ->
                 ~ substring_ci k message_text) ->
  check_faq message_text = Some response /\
  nth_error FAQ_KEYWORDS i = Some keyword.
Proof.
  intros Hi Hocc Hbefore. split.
  - unfold check_faq. apply faq_loop_first with (i := i) (keyword := keyword).
    + exact Hi.
    + apply contains_lower_iff; [|exact Hocc].
      eapply keywords_lower_case, nth_error_In, Hi.
    + intros j k r Hj Hnth.
      destruct (PyStr.contains k (PyStr.lower message_text)) eqn:E; [|reflexivity].
      apply contains_lower_iff in E;
        [|eapply keywords_lower_case, nth_error_In, Hnth].
      destruct (Hbefore j k r Hj Hnth E).
  - rewrite <- keywords_of_table, nth_error_map, Hi. reflexivity.
Qed.

(** "payment" and "returns" stand before "contact" in the message;
    "contact" is earlier in the table and wins. *)
Lemma check_faq_table_order_contact :
  check_faq "Payment, returns or CONTACT?" = nth_error (map snd FAQ_RESPONSES) 2
  /\ nth_error FAQ_KEYWORDS 2 = Some "contact".
Proof.
  apply (check_faq_table_order "Payment, returns or CONTACT?" 2 "contact").
  - reflexivity.
  - exists "Payment, returns or ", "CONTACT", "?". split; reflexivity.
  - intros j k r Hj Hnth Hocc.
    apply contains_lower_iff in Hocc;
      [|exact (keywords_lower_case _ _ (nth_error_In _ _ Hnth))].
    destruct j as [|[|j]]; [| |lia];
      injection Hnth as <- _; vm_compute in Hocc; discriminate Hocc.
Defined.

(** ** The completion client *)

(** C3. [get_ai_response] always returns a string and makes one call to
    the provider: the fixed apology when the call raises, when the reply
    has no choice or when its content is missing; otherwise the content
    without the white space around it. *)
Theorem get_ai_response_total (w : world) (user_message : string) (tr : trace) :
  exists reply,
    get_ai_response user_message w tr
    = (Ret reply, (tr ++ [CompletionCreate (completion_request user_message)])%list)
    /\
    (forall e,
        completions_create w tr (completion_request user_message) = Raise e ->
        reply = APOLOGY)
    /\
    (forall response,
        completions_create w tr (completion_request user_message) = Ret response ->
        match choices response with
        | [] => reply = APOLOGY
        | choice :: _ =>
            match content (message choice) with
            | None => reply = APOLOGY
            | Some text =>
                reply = PyStr.strip text /\
                exists l r,
                  text = l ++ reply ++ r /\ spaces l /\ spaces r /\
                  (forall t x, In t PyStr.WHITESPACE -> reply <> t ++ x) /\
                  (forall t x, In t PyStr.WHITESPACE -> reply <> x ++ t)
            end
        end).
Proof.
  unfold get_ai_response, try_except, bind, create, lift, ret, extract_reply,
    any_exception.
  destruct (completions_create w tr (completion_request user_message))
    as [response|e] eqn:E.
  - destruct (choices response) as [|choice rest] eqn:Ec.
    + exists APOLOGY. split; [reflexivity|]. split; [discriminate|].
      intros r [= <-]. now rewrite Ec.
    + destruct (content (message choice)) as [text|] eqn:Et.
      * exists (PyStr.strip text). split; [reflexivity|]. split; [discriminate|].
        intros r [= <-]. rewrite Ec, Et.
        split; [reflexivity | apply PyStrFacts.strip_spec].
      * exists APOLOGY. split; [reflexivity|]. split; [discriminate|].
        intros r [= <-]. now rewrite Ec, Et.
  - exists APOLOGY. split; [reflexivity|]. split; [reflexivity | discriminate].
Qed.

(** The provider cannot be reached: the caller gets the apology. *)
Lemma get_ai_response_total_offline :
  fst (get_ai_response "I need help with my order" Sample.offline [])
  = Ret "I apologize, but I'm having trouble processing your request right now. Please try again in a moment or contact our support team directly.".
Proof.
  destruct (get_ai_response_total Sample.offline "I need help with my order" [])
    as (reply & Hrun & Hraise & _).
  rewrite Hrun. simpl. f_equal.
  exact (Hraise (PyExc OtherException "Request timed out.") eq_refl).
Defined.

(** ** The messaging client *)

(** [send_telegram_message] makes one call, returns whether the call came
    back without a 4xx or 5xx status, turns a [RequestException] into
    [False] and lets any other exception pass. *)
Lemma send_telegram_message_run (w : world) (chat_id : pyval) (text : string)
    (tr : trace) :
  send_telegram_message chat_id text w tr
  = (match requests_post w tr (send_url w) (send_payload chat_id text) 10 with
     | Ret response => Ret (negb (is_4xx_5xx response))
     | Raise e => if is_request_exception e then Ret false else Raise e
     end,
     (tr ++ [HttpPost (send_url w) (send_payload chat_id text) 10])%list).
Proof.
  unfold send_telegram_message, try_except, bind, ask, post, raise_for_status,
    http_error, is_4xx_5xx, raise, ret.
  destruct (requests_post w tr (send_url w) (send_payload chat_id text) 10)
    as [response|e].
  - destruct (400 <=? status_code response) eqn:E4; simpl.
    + destruct (status_code response <? 500) eqn:E5; simpl.
      * assert ((status_code response <? 600) = true) as -> by lia. reflexivity.
      * assert ((500 <=? status_code response) = true) as -> by lia. simpl.
        destruct (status_code response <? 600); reflexivity.
    + assert ((500 <=? status_code response) = false) as -> by lia. reflexivity.
  - destruct (is_request_exception e); reflexivity.
Qed.

(** C4, as the code has it. [send_telegram_message] makes one call to
    sendMessage. It returns [True] exactly when the call comes back with a
    response whose status is not from 400 to 599, and [False], raising
    nothing, when the call raises a [RequestException] (connection
    failure, timeout) or comes back with such a status. An exception of
    another class is not caught. *)
Theorem send_telegram_message_result (w : world) (chat_id : pyval)
    (text : string) (tr : trace) :
  snd (send_telegram_message chat_id text w tr)
  = (tr ++ [HttpPost (send_url w) (send_payload chat_id text) 10])%list
  /\
  (forall response,
      requests_post w tr (send_url w) (send_payload chat_id text) 10 = Ret response ->
      fst (send_telegram_message chat_id text w tr)
      = Ret (negb (is_4xx_5xx response)))
  /\
  (forall e,
      requests_post w tr (send_url w) (send_payload chat_id text) 10 = Raise e ->
      fst (send_telegram_message chat_id text w tr)
      = if is_request_exception e then Ret false else Raise e).
Proof.
  rewrite send_telegram_message_run. simpl.
  split; [reflexivity|]. split; intros x Hx; now rewrite Hx.
Qed.

(** The platform cannot be reached: the caller gets [False]. *)
Lemma send_telegram_message_result_offline :
  fst (send_telegram_message (PInt 42) "Hello" Sample.offline []) = Ret false.
Proof.
  destruct (send_telegram_message_result Sample.offline (PInt 42) "Hello" [])
    as (_ & _ & Hraise).
  exact (Hraise (PyExc RequestException "Connection refused") eq_refl).
Defined.

(** C4 as it is written fails: a call answered with status 304 is no
    success in the 2xx sense, and [send_telegram_message] returns
    [True]. *)
Lemma send_telegram_message_not_2xx_exact :
  ~ (forall (w : world) (chat_id : pyval) (text : string) (tr : trace),
        fst (send_telegram_message chat_id text w tr) = Ret true <->
        exists response,
          requests_post w tr (send_url w) (send_payload chat_id text) 10
          = Ret response /\ is_2xx response = true).
Proof.
  intros H.
  destruct (H (Sample.answering 304 "Not Modified") (PInt 42) "Hello" []) as [H1 _].
  destruct (H1 eq_refl) as (response & Hpost & H2xx).
  injection Hpost as <-. discriminate H2xx.
Qed.

(** ** The message processor *)

Section ProcessMessage.
Variable w : world.

Lemma bind_lift {A B} (o : outcome A) (k : A -> M B) (tr : trace) :
  bind (lift o) k w tr
  = match o with Ret a => k a w tr | Raise e => (Raise e, tr) end.
Proof. unfold bind, lift. destruct o; reflexivity. Qed.

Lemma bind_ask {B} (k : world -> M B) (tr : trace) :
  bind ask k w tr = k w w tr.
Proof. reflexivity. Qed.

(** Sending and dropping the result. *)
Lemma send_then_return (chat_id : pyval) (text : string) (tr : trace) :
  bind (send_telegram_message chat_id text) (fun _ => ret tt) w tr
  = (match requests_post w tr (send_url w) (send_payload chat_id text) 10 with
     | Ret _ => Ret tt
     | Raise e => if is_request_exception e then Ret tt else Raise e
     end,
     (tr ++ [HttpPost (send_url w) (send_payload chat_id text) 10])%list).
Proof.
  unfold bind at 1. rewrite send_telegram_message_run.
  destruct (requests_post w tr (send_url w) (send_payload chat_id text) 10)
    as [response|e]; [reflexivity|].
  destruct (is_request_exception e); reflexivity.
Qed.

(** The first five lines of [process_message] on a message record. *)
Lemma process_message_record (message : pyval) (tr : trace) :
  message_record message = true ->
  process_message message w tr
  = if negb (truthy (chat_id_value message)) || negb (truthy (text_value message))
    then (Ret tt, tr)
    else
      match text_value message with
      | PStr text =>
          if PyStr.startswith text "/start" then
            bind (send_telegram_message (chat_id_value message)
                    (welcome_message (display_name w message)))
                 (fun _ => ret tt) w tr
          else
            match answered (check_faq text) with
            | Some faq_response =>
                bind (send_telegram_message (chat_id_value message) faq_response)
                     (fun _ => ret tt) w tr
            | None =>
                bind (get_ai_response text)
                     (fun ai_response =>
                        bind (send_telegram_message (chat_id_value message) ai_response)
                             (fun _ => ret tt)) w tr
            end
      | other => (Raise (no_attribute other "startswith"), tr)
      end.
Proof.
  unfold message_record, chat_id_value, text_value, display_name,
    chat_id_of, text_of, first_name_of, process_message.
  destruct message as [| | | | |items|items]; try discriminate.
  cbn [is_object field andb py_get].
  rewrite bind_ask, bind_lift; cbv beta iota.
  destruct (assoc "chat" items) as [chat|].
  - destruct chat as [| | | | |xs|chat_items]; try discriminate.
    cbn [is_object field andb py_get]. repeat (rewrite bind_lift; cbv beta iota).
    destruct (assoc "from" items) as [sender|].
    + destruct sender as [| | | | |xs|sender_items]; try discriminate.
      intros _. cbn [is_object field andb py_get]. repeat (rewrite bind_lift; cbv beta iota).
      destruct (negb _ || negb _); [reflexivity|].
      destruct (match assoc "text" items with Some x => x | None => PStr "" end);
        try reflexivity.
      destruct (PyStr.startswith _ _); [reflexivity|].
      destruct (answered _); reflexivity.
    + intros _. cbn [is_object field andb py_get assoc]. repeat (rewrite bind_lift; cbv beta iota).
      destruct (negb _ || negb _); [reflexivity|].
      destruct (match assoc "text" items with Some x => x | None => PStr "" end);
        try reflexivity.
      destruct (PyStr.startswith _ _); [reflexivity|].
      destruct (answered _); reflexivity.
  - cbn [is_object field andb py_get assoc]. repeat (rewrite bind_lift; cbv beta iota).
    destruct (assoc "from" items) as [sender|].
    + destruct sender as [| | | | |xs|sender_items]; try discriminate.
      intros _. cbn [is_object field andb py_get assoc truthy negb orb]. repeat (rewrite bind_lift; cbv beta iota).
      reflexivity.
    + intros _. cbn [is_object field andb py_get assoc truthy negb orb]. repeat (rewrite bind_lift; cbv beta iota). reflexivity.
Qed.

Lemma get_ai_response_run (user_message : string) (tr : trace) :
  get_ai_response user_message w tr
  = (Ret (reply_or_apology
            (completions_create w tr (completion_request user_message))),
     (tr ++ [CompletionCreate (completion_request user_message)])%list).
Proof.
  unfold get_ai_response, try_except, bind, create, lift, ret,
    reply_or_apology, any_exception.
  destruct (completions_create w tr (completion_request user_message))
    as [response|e]; [|reflexivity].
  destruct (extract_reply response); reflexivity.
Qed.

(** Anything but a message record raises before the guard. *)
Lemma process_message_malformed (message : pyval) (tr : trace) :
  message_record message = false ->
  exists e, process_message message w tr = (Raise e, tr).
Proof.
  unfold message_record, process_message.
  rewrite bind_ask.
  destruct message as [| | | | |items|items];
    try (intros _; rewrite bind_lift; cbv beta iota; eexists; reflexivity).
  cbn [is_object field andb py_get].
  rewrite bind_lift; cbv beta iota.
  destruct (assoc "chat" items) as [chat|].
  - destruct chat as [| | | | |xs|chat_items];
      try (intros _; rewrite bind_lift; cbv beta iota; eexists; reflexivity).
    cbn [is_object field andb py_get]. repeat (rewrite bind_lift; cbv beta iota).
    destruct (assoc "from" items) as [sender|]; [|discriminate].
    destruct sender as [| | | | |xs|sender_items];
      try (intros _; cbn [py_get]; eexists; reflexivity).
    discriminate.
  - cbn [is_object field andb py_get assoc]. repeat (rewrite bind_lift; cbv beta iota).
    destruct (assoc "from" items) as [sender|]; [|discriminate].
    destruct sender as [| | | | |xs|sender_items];
      try (intros _; cbn [py_get]; eexists; reflexivity).
    discriminate.
Qed.

(** When the guard holds nothing is called. *)
Lemma process_message_guard (message : pyval) (tr : trace) :
  truthy (chat_id_value message) && truthy (text_value message) = false ->
  snd (process_message message w tr) = tr /\
  (message_record message = true -> fst (process_message message w tr) = Ret tt).
Proof.
  intros Hguard.
  destruct (message_record message) eqn:Hrec.
  - rewrite (process_message_record message tr Hrec).
    replace (negb (truthy (chat_id_value message))
             || negb (truthy (text_value message))) with true
      by (rewrite <- negb_andb, Hguard; reflexivity).
    split; reflexivity.
  - destruct (process_message_malformed message tr Hrec) as (e & ->).
    split; [reflexivity | discriminate].
Qed.

(** The calls of one run: none, one send, or one completion and then
    one send. *)
Lemma process_message_events (message : pyval) (tr : trace) :
  exists evs,
    snd (process_message message w tr) = (tr ++ evs)%list /\
    (evs = [] \/
     (exists chat_id text,
         evs = [HttpPost (send_url w) (send_payload chat_id text) 10]) \/
     (exists user_message chat_id text,
         evs = [CompletionCreate (completion_request user_message);
                HttpPost (send_url w) (send_payload chat_id text) 10])).
Proof.
  destruct (message_record message) eqn:Hrec.
  - rewrite (process_message_record message tr Hrec).
    destruct (negb _ || negb _).
    { exists []. rewrite app_nil_r. auto. }
    destruct (text_value message) as [| | | |text| |];
      try solve [exists []; rewrite app_nil_r; auto].
    destruct (PyStr.startswith text "/start").
    { rewrite send_then_return. cbn [snd]. eexists. split; [reflexivity|]. eauto. }
    destruct (answered (check_faq text)) as [faq_response|].
    { rewrite send_then_return. cbn [snd]. eexists. split; [reflexivity|]. eauto. }
    unfold bind at 1. rewrite get_ai_response_run, send_then_return.
    cbn [snd]. rewrite <- app_assoc. eexists. split; [reflexivity|].
    right. right. do 3 eexists. reflexivity.
  - destruct (process_message_malformed message tr Hrec) as (e & ->).
    exists []. rewrite app_nil_r. auto.
Qed.

End ProcessMessage.

(** C5. A message without a chat identifier or without a text makes
    [process_message] call nothing, neither sendMessage nor the completion
    provider: the trace is as before. On a message record it returns
    normally. *)
Theorem process_message_absent_field (w : world) (message : pyval) (tr : trace) :
  chat_id_of message = None \/ text_of message = None ->
  snd (process_message message w tr) = tr /\
  (message_record message = true ->
   process_message message w tr = (Ret tt, tr)).
Proof.
  intros Habsent.
  assert (Hguard : truthy (chat_id_value message) && truthy (text_value message)
                   = false).
  { unfold chat_id_value, text_value.
    destruct Habsent as [-> | ->]; [reflexivity | apply andb_false_r]. }
  destruct (process_message_guard w message tr Hguard) as [Htr Hret].
  split; [exact Htr|]. intros Hrec.
  rewrite (surjective_pairing (process_message message w tr)).
  now rewrite Htr, (Hret Hrec).
Qed.

(** A message with a text and no chat: nothing is sent. *)
Lemma process_message_absent_field_no_chat :
  process_message (PDict [("text", PStr "What are your hours?")]) Sample.online []
  = (Ret tt, []).
Proof.
  apply (process_message_absent_field Sample.online
           (PDict [("text", PStr "What are your hours?")]) []).
  - left. reflexivity.
  - reflexivity.
Defined.

(** C10. The guard of [process_message] tests truth values: a chat
    identifier that is there and is 0, or a text that is there and is
    empty, has the effect of a missing one. Nothing is called, and on a
    message record the function returns normally. *)
Theorem process_message_falsy_field (w : world) (message : pyval) (tr : trace) :
  chat_id_of message = Some (PInt 0) \/ text_of message = Some (PStr "") ->
  snd (process_message message w tr) = tr /\
  (message_record message = true ->
   process_message message w tr = (Ret tt, tr)).
Proof.
  intros Hfalsy.
  assert (Hguard : truthy (chat_id_value message) && truthy (text_value message)
                   = false).
  { unfold chat_id_value, text_value.
    destruct Hfalsy as [-> | ->]; [reflexivity | apply andb_false_r]. }
  destruct (process_message_guard w message tr Hguard) as [Htr Hret].
  split; [exact Htr|]. intros Hrec.
  rewrite (surjective_pairing (process_message message w tr)).
  now rewrite Htr, (Hret Hrec).
Qed.

(** Chat 0 asks for the hours: nothing is sent. *)
Lemma process_message_falsy_field_chat_zero :
  process_message (Sample.message_of (PInt 0) "What are your hours?" "Ana")
    Sample.online []
  = (Ret tt, []).
Proof.
  apply (process_message_falsy_field Sample.online
           (Sample.message_of (PInt 0) "What are your hours?" "Ana") []).
  - left. reflexivity.
  - reflexivity.
Defined.

(** C7. One run of [process_message] adds to the trace no call or one
    call to sendMessage, whatever the services answer, and so never sends
    again after a send that failed; it calls the completion provider at
    most once. *)
Theorem process_message_at_most_one_send (w : world) (message : pyval)
    (tr : trace) :
  exists evs,
    snd (process_message message w tr) = (tr ++ evs)%list /\
    (sends w evs = 0 \/ sends w evs = 1)%nat /\
    (completions evs <= 1)%nat.
Proof.
  destruct (process_message_events w message tr)
    as (evs & Htr & [-> | [(c & t & ->) | (u & c & t & ->)]]);
    eexists; (split; [exact Htr|]);
    unfold sends, completions; cbn [filter is_send is_completion];
    rewrite ?String.eqb_refl; cbn [length]; auto.
Qed.

(** The greeting shows the name it is given. *)
Lemma welcome_message_shows_name (user_name : string) :
  PyStr.contains user_name (welcome_message user_name) = true.
Proof.
  apply PyStrFacts.contains_iff. unfold welcome_message.
  eexists "👋 Hello ", _. reflexivity.
Qed.

(** C6, as the code has it. On a message record whose chat identifier is
    true as a condition (it is there and is not 0) and whose text begins
    with "/start", [process_message] makes one call and no other: it sends
    the welcome text to that chat, with the sender's first name in it, or
    "there" when the name is missing. Neither an FAQ answer nor the
    completion provider comes into it. The run returns normally unless the
    call raised an exception that is no [RequestException]. *)
Theorem process_message_start (w : world) (message chat_id : pyval)
    (text : string) (tr : trace) :
  message_record message = true ->
  chat_id_of message = Some chat_id ->
  truthy chat_id = true ->
  text_of message = Some (PStr text) ->
  PyStr.startswith text "/start" = true ->
  snd (process_message message w tr)
  = (tr ++ [HttpPost (send_url w)
              (send_payload chat_id (welcome_message (display_name w message)))
              10])%list
  /\
  fst (process_message message w tr)
  = match requests_post w tr (send_url w)
            (send_payload chat_id (welcome_message (display_name w message))) 10
    with
    | Ret _ => Ret tt
    | Raise e => if is_request_exception e then Ret tt else Raise e
    end
  /\
  PyStr.contains (display_name w message)
    (welcome_message (display_name w message)) = true
  /\
  (forall name, first_name_of message = Some (PStr name) ->
                display_name w message = name)
  /\
  (first_name_of message = None -> display_name w message = "there").
Proof.
  intros Hrec Hid Htruthy Htext Hstart.
  rewrite (process_message_record w message tr Hrec).
  unfold chat_id_value, text_value. rewrite Hid, Htext, Htruthy, Hstart.
  assert (truthy (PStr text) = true) as ->
      by (destruct text; [discriminate Hstart | reflexivity]).
  cbn [negb orb]. rewrite send_then_return. cbn [fst snd].
  split; [reflexivity|]. split; [reflexivity|].
  split; [apply welcome_message_shows_name|].
  unfold display_name. split; [intros name -> | intros ->]; reflexivity.
Qed.

(** Ana greets chat 42: one message goes out, to chat 42, with her name
    in it. *)
Lemma process_message_start_ana :
  exists greeting,
    snd (process_message (Sample.message_of (PInt 42) "/start" "Ana")
           Sample.online [])
    = [HttpPost "https://api.telegram.org/bot123456:TEST/sendMessage"
         (PDict [("chat_id", PInt 42); ("text", PStr greeting);
                 ("parse_mode", PStr "HTML")])
         10]
    /\ PyStr.contains "Ana" greeting = true.
Proof.
  destruct (process_message_start Sample.online
              (Sample.message_of (PInt 42) "/start" "Ana") (PInt 42) "/start" []
              eq_refl eq_refl eq_refl eq_refl eq_refl)
    as (Htr & _ & Hshown & Hname & _).
  rewrite (Hname "Ana" eq_refl) in Htr, Hshown.
  exists (welcome_message "Ana"). split; [exact Htr | exact Hshown].
Defined.

(** C6 as it is written fails: chat identifier 0 is present, the text is
    "/start", and nothing is sent. *)
Lemma process_message_start_chat_zero :
  ~ (forall (w : world) (message chat_id : pyval) (text : string) (tr : trace),
        message_record message = true ->
        chat_id_of message = Some chat_id ->
        text_of message = Some (PStr text) ->
        PyStr.startswith text "/start" = true ->
        exists ev, snd (process_message message w tr) = (tr ++ [ev])%list).
Proof.
  intros H.
  destruct (H Sample.online (Sample.message_of (PInt 0) "/start" "Ana")
              (PInt 0) "/start" [] eq_refl eq_refl eq_refl eq_refl)
    as (ev & Hev).
  discriminate Hev.
Qed.

(** X1. A text with a keyword, on a record with a true chat identifier:
    the configured answer is the one message sent and the provider is not
    called. *)
Lemma process_message_faq (w : world) (message chat_id : pyval)
    (text answer : string) (tr : trace) :
  message_record message = true ->
  chat_id_of message = Some chat_id ->
  truthy chat_id = true ->
  text_of message = Some (PStr text) ->
  PyStr.startswith text "/start" = false ->
  check_faq text = Some answer ->
  snd (process_message message w tr)
  = (tr ++ [HttpPost (send_url w) (send_payload chat_id answer) 10])%list.
Proof.
  intros Hrec Hid Htruthy Htext Hstart Hfaq.
  assert (Hanswer : answered (check_faq text) = Some answer).
  { rewrite Hfaq. unfold answered.
    pose proof (check_faq_inv text) as Hinv. rewrite Hfaq in Hinv.
    destruct Hinv as (i & k & Hi & _).
    apply nth_error_In in Hi. simpl in Hi.
    repeat (destruct Hi as [Hi | Hi]; [now injection Hi as _ <- |]).
    destruct Hi. }
  assert (Hne : truthy (PStr text) = true).
  { destruct text; [discriminate Hfaq | reflexivity]. }
  rewrite (process_message_record w message tr Hrec).
  unfold chat_id_value, text_value.
  rewrite Hid, Htext, Htruthy, Hne, Hstart, Hanswer.
  cbn [negb orb]. rewrite send_then_return. reflexivity.
Qed.

(** X2. A text without a keyword: the provider is called once with the
    text, and what [get_ai_response] made of its answer is then sent, once. *)
Lemma process_message_ai (w : world) (message chat_id : pyval)
    (text : string) (tr : trace) :
  message_record message = true ->
  chat_id_of message = Some chat_id ->
  truthy chat_id = true ->
  text_of message = Some (PStr text) ->
  text <> "" ->
  PyStr.startswith text "/start" = false ->
  check_faq text = None ->
  snd (process_message message w tr)
  = (tr ++ [CompletionCreate (completion_request text);
            HttpPost (send_url w)
              (send_payload chat_id
                 (reply_or_apology
                    (completions_create w tr (completion_request text))))
              10])%list.
Proof.
  intros Hrec Hid Htruthy Htext Hne Hstart Hfaq.
  assert (Ht : truthy (PStr text) = true).
  { destruct text; [now destruct Hne | reflexivity]. }
  rewrite (process_message_record w message tr Hrec).
  unfold chat_id_value, text_value.
  rewrite Hid, Htext, Htruthy, Ht, Hstart, Hfaq.
  cbn [negb orb answered]. unfold bind at 1.
  rewrite get_ai_response_run, send_then_return.
  cbn [snd]. now rewrite <- app_assoc.
Qed.

(** The two messages of the specification's examples. *)
Example process_message_hours :
  snd (process_message (Sample.message_of (PInt 42) "What are your hours?" "Ana")
         Sample.online [])
  = [HttpPost "https://api.telegram.org/bot123456:TEST/sendMessage"
       (send_payload (PInt 42)
          "Our business hours are Monday to Friday, 9 AM to 6 PM EST. We're closed on weekends and public holidays.")
       10].
Proof. reflexivity. Qed.

Example process_message_order :
  snd (process_message (Sample.message_of (PInt 42) "I need help with my order" "Ana")
         Sample.online [])
  = [CompletionCreate (completion_request "I need help with my order");
     HttpPost "https://api.telegram.org/bot123456:TEST/sendMessage"
       (send_payload (PInt 42) "Please share your order number.")
       10].
Proof. reflexivity. Qed.

(** ** The endpoints *)

(** The receiver returns one of its two bodies. *)
Lemma webhook_returns (w : world) (request : Request) (tr : trace) :
  exists body tr',
    webhook request w tr = (Ret body, tr') /\
    (body = PDict [("status", PStr "ok")] \/
     exists e,
       body = PDict [("status", PStr "error"); ("message", PStr (exc_str e))]).
Proof.
  unfold webhook, try_except, any_exception.
  rewrite bind_lift.
  destruct (request_json request) as [update_data|e0].
  - rewrite bind_lift.
    destruct (py_get update_data "message" PNone) as [message|e1].
    + unfold bind.
      destruct ((if truthy message then process_message message else ret tt) w tr)
        as [[u|e2] tr'].
      * do 2 eexists. split; [reflexivity | now left].
      * do 2 eexists. split; [reflexivity | right; now exists e2].
    + do 2 eexists. split; [reflexivity | right; now exists e1].
  - do 2 eexists. split; [reflexivity | right; now exists e0].
Qed.

(** The receiver on a body that decodes to [update_data]. *)
Lemma webhook_run (w : world) (request : Request) (update_data : pyval)
    (tr : trace) :
  request_json request = Ret update_data ->
  webhook request w tr
  = match py_get update_data "message" PNone with
    | Raise e => (Ret (webhook_error e), tr)
    | Ret incoming =>
        if truthy incoming then
          match process_message incoming w tr with
          | (Ret _, tr') => (Ret webhook_ok, tr')
          | (Raise e, tr') => (Ret (webhook_error e), tr')
          end
        else (Ret webhook_ok, tr)
    end.
Proof.
  intros Hjson.
  unfold webhook, try_except, any_exception.
  rewrite bind_lift, Hjson, bind_lift.
  destruct (py_get update_data "message" PNone) as [incoming|e]; [|reflexivity].
  unfold bind. destruct (truthy incoming); [|reflexivity].
  destruct (process_message incoming w tr) as [[u|e] tr']; reflexivity.
Qed.

(** C8. The webhook receiver returns for every request, and so is answered
    with status 200, under one of two bodies. A body that does not decode,
    raising [e], is answered with [{"status": "error", "message": str(e)}]
    and nothing is called; so is a decoded body on which [get] raises [e].
    A message that is true as a condition is handed to [process_message]:
    the calls are those of that run, the body is [{"status": "ok"}] when
    the run returned and [{"status": "error", "message": str(e)}] when it
    raised [e]. Without such a message the body is [{"status": "ok"}] and
    nothing is called. *)
Theorem webhook_always_200 (w : world) (request : Request) (tr : trace) :
  (exists body,
      fst (webhook request w tr) = Ret body /\
      http_status (respond (fst (webhook request w tr))) = 200 /\
      (body = PDict [("status", PStr "ok")] \/
       exists e,
         body = PDict [("status", PStr "error"); ("message", PStr (exc_str e))]))
  /\
  (forall e,
      request_json request = Raise e ->
      webhook request w tr
      = (Ret (PDict [("status", PStr "error"); ("message", PStr (exc_str e))]),
         tr))
  /\
  (forall update_data e,
      request_json request = Ret update_data ->
      py_get update_data "message" PNone = Raise e ->
      webhook request w tr
      = (Ret (PDict [("status", PStr "error"); ("message", PStr (exc_str e))]),
         tr))
  /\
  (forall update_data incoming,
      request_json request = Ret update_data ->
      py_get update_data "message" PNone = Ret incoming ->
      webhook request w tr
      = if truthy incoming then
          (match fst (process_message incoming w tr) with
           | Ret _ => Ret (PDict [("status", PStr "ok")])
           | Raise e =>
               Ret (PDict [("status", PStr "error");
                           ("message", PStr (exc_str e))])
           end,
           snd (process_message incoming w tr))
        else (Ret (PDict [("status", PStr "ok")]), tr)).
Proof.
  split; [|split; [|split]].
  - destruct (webhook_returns w request tr) as (body & tr' & Hrun & Hbody).
    exists body. rewrite Hrun. cbn [fst].
    split; [reflexivity|]. split; [|exact Hbody].
    destruct Hbody as [-> | [e ->]]; reflexivity.
  - intros e He.
    unfold webhook, try_except, any_exception.
    rewrite bind_lift, He. reflexivity.
  - intros update_data e Hjson Hget.
    rewrite (webhook_run w request update_data tr Hjson), Hget. reflexivity.
  - intros update_data incoming Hjson Hget.
    rewrite (webhook_run w request update_data tr Hjson), Hget.
    destruct (truthy incoming); [|reflexivity].
    destruct (process_message incoming w tr) as [[u|e] tr']; reflexivity.
Qed.

(** A body that is no JSON, and a message that is a bare string: each is
    answered with an error report, and nothing was called. *)
Lemma webhook_always_200_malformed_body :
  webhook
    {| request_json :=
         Raise (PyExc OtherException "Expecting value: line 1 column 1 (char 0)") |}
    Sample.online []
  = (Ret (PDict [("status", PStr "error");
                 ("message", PStr "Expecting value: line 1 column 1 (char 0)")]),
     [])
  /\
  webhook {| request_json := Ret (PDict [("message", PStr "hello")]) |}
    Sample.online []
  = (Ret (PDict [("status", PStr "error");
                 ("message", PStr "'str' object has no attribute 'get'")]),
     []).
Proof.
  split.
  - destruct (webhook_always_200 Sample.online
                {| request_json :=
                     Raise (PyExc OtherException
                              "Expecting value: line 1 column 1 (char 0)") |} [])
      as (_ & Hraise & _).
    exact (Hraise _ eq_refl).
  - destruct (webhook_always_200 Sample.online
                {| request_json := Ret (PDict [("message", PStr "hello")]) |} [])
      as (_ & _ & _ & Hhand).
    exact (Hhand (PDict [("message", PStr "hello")]) (PStr "hello")
             eq_refl eq_refl).
Defined.

(** What [raise_for_status] raises is a [RequestException]. *)
Lemma http_error_class (response : Response) (e : pyexc) :
  http_error response = Some e -> is_request_exception e = true.
Proof.
  unfold http_error.
  destruct ((400 <=? status_code response) && (status_code response <? 500));
    [now intros [= <-]|].
  destruct ((500 <=? status_code response) && (status_code response <? 600));
    [now intros [= <-] | discriminate].
Qed.

Lemma http_error_iff (response : Response) :
  is_4xx_5xx response = true <-> exists e, http_error response = Some e.
Proof.
  unfold http_error, is_4xx_5xx.
  destruct (400 <=? status_code response) eqn:E4;
    destruct (status_code response <? 500) eqn:E5;
    destruct (500 <=? status_code response) eqn:E6;
    destruct (status_code response <? 600) eqn:E7;
    cbn [andb]; split; intros H; try reflexivity; try discriminate;
    try (eexists; reflexivity); try lia;
    destruct H as [e H]; discriminate.
Qed.

(** [set_webhook] makes one call to setWebhook; its result by the outcome
    of that call. *)
Lemma set_webhook_run (w : world) (webhook_url : string) (tr : trace) :
  set_webhook webhook_url w tr
  = (match requests_post w tr (set_webhook_url w)
             (set_webhook_payload webhook_url) 10 with
     | Ret response =>
         match http_error response with
         | Some e =>
             Raise (http_exception 500 ("Failed to set webhook: " ++ exc_str e))
         | None =>
             match json response with
             | Ret result =>
                 Ret (PDict [("success", PBool true);
                             ("message", PStr "Webhook set successfully");
                             ("webhook_url", PStr webhook_url);
                             ("telegram_response", result)])
             | Raise e =>
                 if is_request_exception e then
                   Raise (http_exception 500
                            ("Failed to set webhook: " ++ exc_str e))
                 else Raise e
             end
         end
     | Raise e =>
         if is_request_exception e then
           Raise (http_exception 500 ("Failed to set webhook: " ++ exc_str e))
         else Raise e
     end,
     (tr ++ [HttpPost (set_webhook_url w) (set_webhook_payload webhook_url) 10])%list).
Proof.
  unfold set_webhook, try_except, bind, ask, post, raise_for_status, lift,
    raise, ret.
  destruct (requests_post w tr (set_webhook_url w)
              (set_webhook_payload webhook_url) 10) as [response|e].
  - destruct (http_error response) as [e|] eqn:E.
    + now rewrite (http_error_class response e E).
    + destruct (json response) as [result|e]; [reflexivity|].
      destruct (is_request_exception e); reflexivity.
  - destruct (is_request_exception e); reflexivity.
Qed.

(** C9, as the code has it. The registration endpoint answers with status
    500 and the detail "Failed to set webhook: " followed by the text of
    the cause when the call to setWebhook raises a [RequestException]
    (connection failure, timeout), when it comes back with a status from
    400 to 599 (the cause is then the [HTTPError] of [raise_for_status]),
    or when decoding the body raises a [RequestException]. When the call
    comes back with another status and a body that decodes, the handler
    returns [success: True] with the message, the URL and the decoded
    body. *)
Theorem set_webhook_result (w : world) (webhook_url : string) (tr : trace) :
  (forall cause,
      requests_post w tr (set_webhook_url w) (set_webhook_payload webhook_url) 10
      = Raise cause
      \/ (exists response,
             requests_post w tr (set_webhook_url w)
               (set_webhook_payload webhook_url) 10 = Ret response
             /\ (http_error response = Some cause
                 \/ (is_4xx_5xx response = false /\ json response = Raise cause))) ->
      is_request_exception cause = true ->
      respond (fst (set_webhook webhook_url w tr))
      = {| http_status := 500;
           http_body :=
             PDict [("detail", PStr ("Failed to set webhook: " ++ exc_str cause))] |}
      /\ PyStr.contains (exc_str cause) ("Failed to set webhook: " ++ exc_str cause)
         = true)
  /\
  (forall response,
      requests_post w tr (set_webhook_url w) (set_webhook_payload webhook_url) 10
      = Ret response ->
      is_4xx_5xx response = true ->
      exists cause, http_error response = Some cause
                    /\ is_request_exception cause = true)
  /\
  (forall response result,
      requests_post w tr (set_webhook_url w) (set_webhook_payload webhook_url) 10
      = Ret response ->
      is_4xx_5xx response = false ->
      json response = Ret result ->
      fst (set_webhook webhook_url w tr)
      = Ret (PDict [("success", PBool true);
                    ("message", PStr "Webhook set successfully");
                    ("webhook_url", PStr webhook_url);
                    ("telegram_response", result)])).
Proof.
  rewrite set_webhook_run. cbn [fst].
  split; [|split].
  - intros cause Hcause Hclass. split.
    + destruct Hcause as [-> | (response & -> & [-> | [H45 ->]])].
      * now rewrite Hclass.
      * reflexivity.
      * destruct (http_error response) as [e|] eqn:E.
        -- assert (is_4xx_5xx response = true) by (apply http_error_iff; eauto).
           congruence.
        -- now rewrite Hclass.
    + apply PyStrFacts.contains_iff.
      exists "Failed to set webhook: ", "".
      now rewrite PyStrFacts.append_nil_r.
  - intros response _ H45.
    apply http_error_iff in H45. destruct H45 as [cause Hcause].
    exists cause. split; [exact Hcause | exact (http_error_class _ _ Hcause)].
  - intros response result -> H45 ->.
    destruct (http_error response) as [e|] eqn:E.
    + assert (is_4xx_5xx response = true) by (apply http_error_iff; eauto).
      congruence.
    + reflexivity.
Qed.

(** The platform cannot be reached: status 500, and the detail names the
    cause. *)
Lemma set_webhook_result_offline :
  respond (fst (set_webhook "https://bot.example/webhook" Sample.offline []))
  = {| http_status := 500;
       http_body :=
         PDict [("detail", PStr "Failed to set webhook: Connection refused")] |}
  /\ PyStr.contains "Connection refused" "Failed to set webhook: Connection refused"
     = true.
Proof.
  destruct (set_webhook_result Sample.offline "https://bot.example/webhook" [])
    as (Hfail & _ & _).
  apply (Hfail (PyExc RequestException "Connection refused")).
  - left. reflexivity.
  - reflexivity.
Defined.

(** C9 as it is written fails: a call answered with status 300 and a
    JSON body, which is no 2xx status and no redirect that is followed, is
    reported as a success under status 200. *)
Lemma set_webhook_not_2xx_success :
  ~ (forall (w : world) (webhook_url : string) (tr : trace) (response : Response),
        requests_post w tr (set_webhook_url w) (set_webhook_payload webhook_url) 10
        = Ret response ->
        is_2xx response = false ->
        400 <= http_status (respond (fst (set_webhook webhook_url w tr)))).
Proof.
  intros H.
  specialize (H (Sample.answering 300 "Multiple Choices")
                "https://bot.example/webhook" [] _ eq_refl eq_refl).
  vm_compute in H. apply H. reflexivity.
Qed.

(** * Further properties *)

(** ** The message processor, branch by branch *)

(** Chat 42 asks for the hours in capitals: the configured answer is the
    one message that goes out, and the provider is not called. *)
Lemma process_message_faq_hours :
  snd (process_message (Sample.message_of (PInt 42) "What are your HOURS?" "Ana")
         Sample.online [])
  = [HttpPost (send_url Sample.online)
       (send_payload (PInt 42)
          "Our business hours are Monday to Friday, 9 AM to 6 PM EST. We're closed on weekends and public holidays.")
       10].
Proof.
  exact (process_message_faq Sample.online
           (Sample.message_of (PInt 42) "What are your HOURS?" "Ana")
           (PInt 42) "What are your HOURS?" _ []
           eq_refl eq_refl eq_refl eq_refl eq_refl eq_refl).
Defined.

(** With both services down the provider is still called once and the one
    send carries what [get_ai_response] returned. *)
Lemma process_message_ai_offline :
  snd (process_message (Sample.message_of (PInt 42) "I need help with my order" "Ana")
         Sample.offline [])
  = [CompletionCreate (completion_request "I need help with my order");
     HttpPost (send_url Sample.offline)
       (send_payload (PInt 42)
          (reply_or_apology
             (completions_create Sample.offline []
                (completion_request "I need help with my order"))))
       10].
Proof.
  refine (process_message_ai Sample.offline
            (Sample.message_of (PInt 42) "I need help with my order" "Ana")
            (PInt 42) "I need help with my order" []
            eq_refl eq_refl eq_refl eq_refl _ eq_refl eq_refl).
  discriminate.
Defined.

(** X3. When the provider raises, returns no choice or returns a choice
    without content, a text without a keyword is still answered, once, with
    the apology, and the provider is not asked again. *)
Theorem process_message_apology (w : world) (incoming chat_id : pyval)
    (text : string) (tr : trace) :
  message_record incoming = true ->
  chat_id_of incoming = Some chat_id ->
  truthy chat_id = true ->
  text_of incoming = Some (PStr text) ->
  text <> "" ->
  PyStr.startswith text "/start" = false ->
  check_faq text = None ->
  ((exists e, completions_create w tr (completion_request text) = Raise e)
   \/ (exists response,
         completions_create w tr (completion_request text) = Ret response /\
         (choices response = [] \/
          exists choice rest,
            choices response = choice :: rest /\
            content (message choice) = None))) ->
  snd (process_message incoming w tr)
  = (tr ++ [CompletionCreate (completion_request text);
            HttpPost (send_url w) (send_payload chat_id APOLOGY) 10])%list.
Proof.
  intros Hrec Hid Htruthy Htext Hne Hstart Hfaq Hdown.
  assert (Ht : truthy (PStr text) = true).
  { destruct text; [now destruct Hne | reflexivity]. }
  assert (Hreply : reply_or_apology
                     (completions_create w tr (completion_request text))
                   = APOLOGY).
  { unfold reply_or_apology, extract_reply.
    destruct Hdown as [[e ->] | (response & -> & [-> | (c & rest & -> & ->)])];
      reflexivity. }
  rewrite (process_message_record w incoming tr Hrec).
  unfold chat_id_value, text_value.
  rewrite Hid, Htext, Htruthy, Ht, Hstart, Hfaq.
  cbn [negb orb answered]. unfold bind at 1.
  rewrite get_ai_response_run, send_then_return, Hreply.
  cbn [snd]. now rewrite <- app_assoc.
Qed.

(** The provider answers with an empty list of choices. *)
Lemma process_message_apology_no_choice :
  snd (process_message (Sample.message_of (PInt 42) "I need help with my order" "Ana")
         {| BOT_TOKEN := "123456:TEST";
            requests_post := fun _ u _ _ => Ret (Sample.ok_response u);
            requests_get := fun _ u _ => Ret (Sample.ok_response u);
            completions_create := fun _ _ => Ret {| choices := [] |};
            builtin_str := Sample.plain_str |} [])
  = [CompletionCreate (completion_request "I need help with my order");
     HttpPost "https://api.telegram.org/bot123456:TEST/sendMessage"
       (send_payload (PInt 42) APOLOGY) 10].
Proof.
  refine (process_message_apology _
            (Sample.message_of (PInt 42) "I need help with my order" "Ana")
            (PInt 42) "I need help with my order" []
            eq_refl eq_refl eq_refl eq_refl _ eq_refl eq_refl _).
  - discriminate.
  - right. exists {| choices := [] |}. split; [reflexivity | now left].
Defined.

(** X4. What is no message record (no object, or an object whose [chat]
    or [from] is no object) makes [process_message] raise an
    [AttributeError] before anything is called. *)
Theorem process_message_malformed_raises (w : world) (message : pyval)
    (tr : trace) :
  message_record message = false ->
  exists e,
    process_message message w tr = (Raise e, tr) /\
    exc_cls e = AttributeError.
Proof.
  unfold message_record, process_message.
  rewrite bind_ask.
  destruct message as [| | | | |items|items];
    try (intros _; rewrite bind_lift; cbv beta iota; eexists; split; reflexivity).
  cbn [is_object field andb py_get].
  rewrite bind_lift; cbv beta iota.
  destruct (assoc "chat" items) as [chat|].
  - destruct chat as [| | | | |xs|chat_items];
      try (intros _; rewrite bind_lift; cbv beta iota; eexists; split; reflexivity).
    cbn [is_object field andb py_get]. repeat (rewrite bind_lift; cbv beta iota).
    destruct (assoc "from" items) as [sender|]; [|discriminate].
    destruct sender as [| | | | |xs|sender_items];
      try (intros _; cbn [py_get]; eexists; split; reflexivity).
    discriminate.
  - cbn [is_object field andb py_get assoc]. repeat (rewrite bind_lift; cbv beta iota).
    destruct (assoc "from" items) as [sender|]; [|discriminate].
    destruct sender as [| | | | |xs|sender_items];
      try (intros _; cbn [py_get]; eexists; split; reflexivity).
    discriminate.
Qed.

(** A message whose [chat] is a number. *)
Lemma process_message_malformed_raises_chat_number :
  exists e,
    process_message (PDict [("chat", PInt 42); ("text", PStr "hello")])
      Sample.online []
    = (Raise e, []) /\
    exc_cls e = AttributeError.
Proof.
  apply (process_message_malformed_raises Sample.online
           (PDict [("chat", PInt 42); ("text", PStr "hello")]) []).
  reflexivity.
Defined.

(** X5. A text that passes the guard and is no string (a number, a list,
    an object, [true]) makes [process_message] raise the [AttributeError]
    of [startswith]; nothing is sent and the provider is not called. *)
Theorem process_message_text_not_string (w : world) (message chat_id v : pyval)
    (tr : trace) :
  message_record message = true ->
  chat_id_of message = Some chat_id ->
  truthy chat_id = true ->
  text_of message = Some v ->
  truthy v = true ->
  (forall s, v <> PStr s) ->
  process_message message w tr = (Raise (no_attribute v "startswith"), tr).
Proof.
  intros Hrec Hid Htruthy Htext Hv Hnot.
  rewrite (process_message_record w message tr Hrec).
  unfold chat_id_value, text_value. rewrite Hid, Htext, Htruthy, Hv.
  cbn [negb orb].
  destruct v; try reflexivity. now destruct (Hnot s).
Qed.

(** The text is the number 7. *)
Lemma process_message_text_not_string_number :
  process_message (PDict [("chat", PDict [("id", PInt 42)]); ("text", PInt 7)])
    Sample.online []
  = (Raise (PyExc AttributeError "'int' object has no attribute 'startswith'"), []).
Proof.
  refine (process_message_text_not_string Sample.online
            (PDict [("chat", PDict [("id", PInt 42)]); ("text", PInt 7)])
            (PInt 42) (PInt 7) [] eq_refl eq_refl eq_refl eq_refl eq_refl _).
  discriminate.
Defined.

(** The outcome of a run on a message record whose text is a string: a
    normal return, or the exception of the send that no handler caught. *)
Lemma process_message_outcome (w : world) (message : pyval) (tr : trace) :
  message_record message = true ->
  (exists s, text_value message = PStr s) ->
  fst (process_message message w tr) = Ret tt \/
  exists tr' text e,
    requests_post w tr' (send_url w)
      (send_payload (chat_id_value message) text) 10 = Raise e /\
    is_request_exception e = false /\
    fst (process_message message w tr) = Raise e.
Proof.
  intros Hrec [s Hs].
  rewrite (process_message_record w message tr Hrec), Hs.
  destruct (negb _ || negb _); [now left|].
  assert (Hsend : forall text tr0,
             fst (bind (send_telegram_message (chat_id_value message) text)
                       (fun _ => ret tt) w tr0) = Ret tt \/
             exists tr' text' e,
               requests_post w tr' (send_url w)
                 (send_payload (chat_id_value message) text') 10 = Raise e /\
               is_request_exception e = false /\
               fst (bind (send_telegram_message (chat_id_value message) text)
                         (fun _ => ret tt) w tr0) = Raise e).
  { intros text tr0. rewrite send_then_return. cbn [fst].
    destruct (requests_post w tr0 (send_url w)
                (send_payload (chat_id_value message) text) 10) as [r|e] eqn:E;
      [now left|].
    destruct (is_request_exception e) eqn:Ec; [now left|].
    right. exists tr0, text, e. auto. }
  destruct (PyStr.startswith s "/start"); [apply Hsend|].
  destruct (answered (check_faq s)); [apply Hsend|].
  unfold bind at 1 3. rewrite get_ai_response_run. apply Hsend.
Qed.

(** X6. A failed delivery is not an error of [process_message]: on a
    message record whose text is a string the run returns normally whatever
    the platform answers, as long as a failing call raises a
    [RequestException]. *)
Theorem process_message_survives_failed_send (w : world) (message : pyval)
    (tr : trace) :
  message_record message = true ->
  (exists s, text_value message = PStr s) ->
  post_raises_request_exceptions w ->
  fst (process_message message w tr) = Ret tt.
Proof.
  intros Hrec Htext Hpost.
  destruct (process_message_outcome w message tr Hrec Htext)
    as [Hret | (tr' & text & e & Hraise & Hclass & _)]; [exact Hret|].
  rewrite (Hpost _ _ _ _ _ Hraise) in Hclass. discriminate.
Qed.

(** The platform cannot be reached; the run returns all the same. *)
Lemma process_message_survives_failed_send_offline :
  fst (process_message (Sample.message_of (PInt 42) "What are your hours?" "Ana")
         Sample.offline [])
  = Ret tt.
Proof.
  refine (process_message_survives_failed_send Sample.offline
            (Sample.message_of (PInt 42) "What are your hours?" "Ana") []
            eq_refl _ _).
  - now exists "What are your hours?".
  - intros tr u body timeout e [= <-]. reflexivity.
Defined.

(** X7. Whatever a run calls concerns the incoming message: every send
    goes to sendMessage with the chat identifier of the message, HTML parse
    mode and a timeout of 10, every completion request carries the text of
    the message, and nothing is fetched. *)
Theorem process_message_calls_concern_message (w : world) (message : pyval)
    (tr : trace) :
  exists evs,
    snd (process_message message w tr) = (tr ++ evs)%list /\
    Forall (call_of w message) evs.
Proof.
  destruct (message_record message) eqn:Hrec.
  - rewrite (process_message_record w message tr Hrec).
    destruct (negb _ || negb _).
    { exists []. rewrite app_nil_r. auto. }
    destruct (text_value message) as [| | | |text| |] eqn:Htext;
      try solve [exists []; rewrite app_nil_r; auto].
    assert (Hsend : forall t, call_of w message
                     (HttpPost (send_url w) (send_payload (chat_id_value message) t) 10)).
    { intros t. cbn. repeat split. now exists t. }
    destruct (PyStr.startswith text "/start").
    { rewrite send_then_return. cbn [snd]. eexists. split; [reflexivity|].
      repeat constructor; apply Hsend. }
    destruct (answered (check_faq text)) as [faq_response|].
    { rewrite send_then_return. cbn [snd]. eexists. split; [reflexivity|].
      repeat constructor; apply Hsend. }
    unfold bind at 1. rewrite get_ai_response_run, send_then_return.
    cbn [snd]. rewrite <- app_assoc. eexists. split; [reflexivity|].
    constructor; [|constructor; [apply Hsend | constructor]].
    cbn. exists text. split; [exact Htext | reflexivity].
  - destruct (process_message_malformed w message tr Hrec) as (e & ->).
    exists []. rewrite app_nil_r. auto.
Qed.

(** ** The webhook receiver, case by case *)

(** X8. An update without a message, or with one that is false as a
    condition ([null], an empty object, an empty string, 0), is answered
    with [{"status": "ok"}] and nothing is called. *)
Theorem webhook_without_message (w : world) (request : Request)
    (update_data : pyval) (tr : trace) :
  request_json request = Ret update_data ->
  is_object update_data = true ->
  (field "message" update_data = None \/
   exists incoming,
     field "message" update_data = Some incoming /\ truthy incoming = false) ->
  webhook request w tr = (Ret webhook_ok, tr).
Proof.
  intros Hjson Hobj Hmsg.
  rewrite (webhook_run w request update_data tr Hjson).
  destruct update_data as [| | | | | |items]; try discriminate Hobj.
  cbn [py_get field] in *.
  destruct Hmsg as [-> | (incoming & -> & ->)]; reflexivity.
Qed.

(** An update that carries only its identifier. *)
Lemma webhook_without_message_bare_update :
  webhook {| request_json := Ret (PDict [("update_id", PInt 7)]) |}
    Sample.online []
  = (Ret (PDict [("status", PStr "ok")]), []).
Proof.
  refine (webhook_without_message Sample.online
            {| request_json := Ret (PDict [("update_id", PInt 7)]) |}
            (PDict [("update_id", PInt 7)]) [] eq_refl eq_refl _).
  left. reflexivity.
Defined.

(** X9. A body that decodes to something other than an object (a list,
    a string, a number, [null]) is answered with the error report of the
    [AttributeError] of [get], and nothing is called. *)
Theorem webhook_update_not_object (w : world) (request : Request)
    (update_data : pyval) (tr : trace) :
  request_json request = Ret update_data ->
  is_object update_data = false ->
  webhook request w tr
  = (Ret (PDict [("status", PStr "error");
                 ("message",
                  PStr ("'" ++ type_name update_data
                        ++ "' object has no attribute 'get'"))]),
     tr).
Proof.
  intros Hjson Hobj.
  rewrite (webhook_run w request update_data tr Hjson).
  destruct update_data; try discriminate Hobj; reflexivity.
Qed.

(** The body is the JSON list [[1]]. *)
Lemma webhook_update_not_object_list :
  webhook {| request_json := Ret (PList [PInt 1]) |} Sample.online []
  = (Ret (PDict [("status", PStr "error");
                 ("message", PStr "'list' object has no attribute 'get'")]),
     []).
Proof.
  exact (webhook_update_not_object Sample.online
           {| request_json := Ret (PList [PInt 1]) |} (PList [PInt 1]) []
           eq_refl eq_refl).
Defined.

(** X10. An update with a message that is true as a condition is handed
    to [process_message]: the receiver makes exactly the calls of that run,
    and reports [ok] when the run returned and the error text when it
    raised. *)
Theorem webhook_hands_over (w : world) (request : Request)
    (update_data incoming : pyval) (tr : trace) :
  request_json request = Ret update_data ->
  field "message" update_data = Some incoming ->
  truthy incoming = true ->
  snd (webhook request w tr) = snd (process_message incoming w tr) /\
  fst (webhook request w tr)
  = match fst (process_message incoming w tr) with
    | Ret _ => Ret webhook_ok
    | Raise e => Ret (webhook_error e)
    end.
Proof.
  intros Hjson Hmsg Htruthy.
  rewrite (webhook_run w request update_data tr Hjson).
  destruct update_data as [| | | | | |items]; try discriminate Hmsg.
  cbn [py_get field] in *. rewrite Hmsg, Htruthy.
  destruct (process_message incoming w tr) as [[u|e] tr']; split; reflexivity.
Qed.

(** A message that is a bare string is handed over, and the error of the
    run is what the receiver reports. *)
Lemma webhook_hands_over_string_message :
  webhook {| request_json := Ret (PDict [("message", PStr "hello")]) |}
    Sample.online []
  = (Ret (PDict [("status", PStr "error");
                 ("message", PStr "'str' object has no attribute 'get'")]),
     []).
Proof.
  destruct (webhook_hands_over Sample.online
              {| request_json := Ret (PDict [("message", PStr "hello")]) |}
              (PDict [("message", PStr "hello")]) (PStr "hello") []
              eq_refl eq_refl eq_refl) as [Htr Hres].
  rewrite (surjective_pairing (webhook _ _ _)), Htr, Hres. reflexivity.
Defined.

(** X11. One delivery to the receiver causes at most one call to
    sendMessage and at most one call to the completion provider, whatever
    the body and whatever the services answer. *)
Theorem webhook_at_most_one_send (w : world) (request : Request) (tr : trace) :
  exists evs,
    snd (webhook request w tr) = (tr ++ evs)%list /\
    (sends w evs <= 1)%nat /\
    (completions evs <= 1)%nat.
Proof.
  assert (Hnone : exists evs, tr = (tr ++ evs)%list /\
                              (sends w evs <= 1)%nat /\ (completions evs <= 1)%nat).
  { exists []. rewrite app_nil_r. cbn. auto. }
  destruct (request_json request) as [update_data|e0] eqn:Hjson.
  - rewrite (webhook_run w request update_data tr Hjson).
    destruct (py_get update_data "message" PNone) as [incoming|e1];
      [|exact Hnone].
    destruct (truthy incoming); [|exact Hnone].
    destruct (process_message_events w incoming tr)
      as (evs & Htr & Hevs).
    exists evs. split.
    + destruct (process_message incoming w tr) as [[u|e] tr']; exact Htr.
    + destruct Hevs as [-> | [(c & t & ->) | (u & c & t & ->)]];
        unfold sends, completions; cbn [filter is_send is_completion];
        rewrite ?String.eqb_refl; cbn [length]; auto.
  - unfold webhook, try_except, any_exception.
    rewrite bind_lift, Hjson. exact Hnone.
Qed.

(** X12. The receiver acknowledges an update whose reply could not be
    delivered: for a message record with a string as text the body is
    [{"status": "ok"}] whatever the platform answers, as long as a failing
    call raises a [RequestException]. *)
Theorem webhook_acknowledges_failed_send (w : world) (request : Request)
    (update_data incoming : pyval) (tr : trace) :
  request_json request = Ret update_data ->
  field "message" update_data = Some incoming ->
  message_record incoming = true ->
  (exists s, text_value incoming = PStr s) ->
  post_raises_request_exceptions w ->
  fst (webhook request w tr) = Ret webhook_ok.
Proof.
  intros Hjson Hmsg Hrec Htext Hpost.
  rewrite (webhook_run w request update_data tr Hjson).
  destruct update_data as [| | | | | |items]; try discriminate Hmsg.
  cbn [py_get field] in *. rewrite Hmsg.
  destruct (truthy incoming); [|reflexivity].
  destruct (process_message_outcome w incoming tr Hrec Htext)
    as [Hret | (tr' & text & e & Hraise & Hclass & _)].
  - destruct (process_message incoming w tr) as [[u|e] tr'];
      [reflexivity | discriminate Hret].
  - rewrite (Hpost _ _ _ _ _ Hraise) in Hclass. discriminate.
Qed.

(** The platform cannot be reached when chat 42 asks for the hours. *)
Lemma webhook_acknowledges_failed_send_offline :
  fst (webhook
         {| request_json :=
              Ret (PDict [("update_id", PInt 7);
                          ("message",
                           Sample.message_of (PInt 42) "What are your hours?" "Ana")]) |}
         Sample.offline [])
  = Ret (PDict [("status", PStr "ok")]).
Proof.
  refine (webhook_acknowledges_failed_send Sample.offline
            {| request_json :=
                 Ret (PDict [("update_id", PInt 7);
                             ("message",
                              Sample.message_of (PInt 42) "What are your hours?" "Ana")]) |}
            (PDict [("update_id", PInt 7);
                    ("message",
                     Sample.message_of (PInt 42) "What are your hours?" "Ana")])
            (Sample.message_of (PInt 42) "What are your hours?" "Ana") []
            eq_refl eq_refl eq_refl _ _).
  - now exists "What are your hours?".
  - intros tr u body timeout e [= <-]. reflexivity.
Defined.

(** ** The administrator's endpoints *)

(** [get_webhook_info] makes one call to getWebhookInfo; its result by the
    outcome of that call. *)
Lemma get_webhook_info_run (w : world) (tr : trace) :
  get_webhook_info w tr
  = (match requests_get w tr (TELEGRAM_API_URL w ++ "/getWebhookInfo") 10 with
     | Ret response =>
         match http_error response with
         | Some e =>
             Raise (http_exception 500
                      ("Failed to get webhook info: " ++ exc_str e))
         | None =>
             match json response with
             | Ret result =>
                 match py_get result "result" (PDict []) with
                 | Ret webhook_info =>
                     Ret (PDict [("success", PBool true);
                                 ("webhook_info", webhook_info)])
                 | Raise e => Raise e
                 end
             | Raise e =>
                 if is_request_exception e then
                   Raise (http_exception 500
                            ("Failed to get webhook info: " ++ exc_str e))
                 else Raise e
             end
         end
     | Raise e =>
         if is_request_exception e then
           Raise (http_exception 500 ("Failed to get webhook info: " ++ exc_str e))
         else Raise e
     end,
     (tr ++ [HttpGet (TELEGRAM_API_URL w ++ "/getWebhookInfo") 10])%list).
Proof.
  unfold get_webhook_info, try_except, bind, ask, get, raise_for_status, lift,
    raise, ret.
  destruct (requests_get w tr (TELEGRAM_API_URL w ++ "/getWebhookInfo") 10)
    as [response|e].
  - destruct (http_error response) as [e|] eqn:E.
    + now rewrite (http_error_class response e E).
    + destruct (json response) as [result|e].
      * destruct result; reflexivity.
      * destruct (is_request_exception e); reflexivity.
  - destruct (is_request_exception e); reflexivity.
Qed.

(** X13. The inspection endpoint makes one GET to getWebhookInfo with a
    timeout of 10. A [RequestException] of the call, a status from 400 to
    599 or a [RequestException] of decoding gives status 500 with the
    detail "Failed to get webhook info: " and the text of the cause. On a
    body that decodes to an object the handler returns [success: True]
    and, as [webhook_info], the value under "result" of the body, or an
    empty object when the body has no such key. *)
Theorem get_webhook_info_result (w : world) (tr : trace) :
  snd (get_webhook_info w tr)
  = (tr ++ [HttpGet (TELEGRAM_API_URL w ++ "/getWebhookInfo") 10])%list
  /\
  (forall cause,
      requests_get w tr (TELEGRAM_API_URL w ++ "/getWebhookInfo") 10 = Raise cause
      \/ (exists response,
             requests_get w tr (TELEGRAM_API_URL w ++ "/getWebhookInfo") 10
             = Ret response
             /\ (http_error response = Some cause
                 \/ (is_4xx_5xx response = false /\ json response = Raise cause))) ->
      is_request_exception cause = true ->
      respond (fst (get_webhook_info w tr))
      = {| http_status := 500;
           http_body :=
             PDict [("detail",
                     PStr ("Failed to get webhook info: " ++ exc_str cause))] |})
  /\
  (forall response items,
      requests_get w tr (TELEGRAM_API_URL w ++ "/getWebhookInfo") 10 = Ret response ->
      is_4xx_5xx response = false ->
      json response = Ret (PDict items) ->
      fst (get_webhook_info w tr)
      = Ret (PDict [("success", PBool true);
                    ("webhook_info",
                     match assoc "result" items with
                     | Some info => info
                     | None => PDict []
                     end)])).
Proof.
  rewrite get_webhook_info_run. cbn [fst snd].
  split; [reflexivity|]. split.
  - intros cause Hcause Hclass.
    destruct Hcause as [-> | (response & -> & [-> | [H45 ->]])].
    + now rewrite Hclass.
    + reflexivity.
    + destruct (http_error response) as [e|] eqn:E.
      * assert (is_4xx_5xx response = true) by (apply http_error_iff; eauto).
        congruence.
      * now rewrite Hclass.
  - intros response items -> H45 ->.
    destruct (http_error response) as [e|] eqn:E.
    + assert (is_4xx_5xx response = true) by (apply http_error_iff; eauto).
      congruence.
    + reflexivity.
Qed.

(** The platform answers 200 with a body that has no "result": the
    endpoint reports an empty object. *)
Lemma get_webhook_info_result_no_result_key :
  fst (get_webhook_info
         {| BOT_TOKEN := "123456:TEST";
            requests_post := fun _ u _ _ => Ret (Sample.ok_response u);
            requests_get := fun _ u _ =>
              Ret {| status_code := 200; reason := "OK"; url := u;
                     json := Ret (PDict [("ok", PBool true)]) |};
            completions_create := fun _ _ => Ret (Sample.reply_with None);
            builtin_str := Sample.plain_str |} [])
  = Ret (PDict [("success", PBool true); ("webhook_info", PDict [])]).
Proof.
  destruct (get_webhook_info_result
              {| BOT_TOKEN := "123456:TEST";
                 requests_post := fun _ u _ _ => Ret (Sample.ok_response u);
                 requests_get := fun _ u _ =>
                   Ret {| status_code := 200; reason := "OK"; url := u;
                          json := Ret (PDict [("ok", PBool true)]) |};
                 completions_create := fun _ _ => Ret (Sample.reply_with None);
                 builtin_str := Sample.plain_str |} [])
    as (_ & _ & Hok).
  exact (Hok _ [("ok", PBool true)] eq_refl eq_refl eq_refl).
Defined.

(** X14. When the body of getWebhookInfo decodes to something that is no
    object, the [AttributeError] of [result.get] is not caught by the
    handler, which catches [RequestException] only: the caller gets the
    framework's status 500 without the "Failed to get webhook info" detail. *)
Theorem get_webhook_info_body_not_object (w : world) (tr : trace)
    (response : Response) (result : pyval) :
  requests_get w tr (TELEGRAM_API_URL w ++ "/getWebhookInfo") 10 = Ret response ->
  is_4xx_5xx response = false ->
  json response = Ret result ->
  is_object result = false ->
  fst (get_webhook_info w tr) = Raise (no_attribute result "get") /\
  respond (fst (get_webhook_info w tr)) = internal_server_error.
Proof.
  intros Hget H45 Hjson Hobj.
  rewrite get_webhook_info_run, Hget, Hjson. cbn [fst].
  destruct (http_error response) as [e|] eqn:E.
  - assert (is_4xx_5xx response = true) by (apply http_error_iff; eauto).
    congruence.
  - destruct result; try discriminate Hobj; split; reflexivity.
Qed.

(** The body is the JSON list [[]]. *)
Lemma get_webhook_info_body_not_object_list :
  fst (get_webhook_info
         {| BOT_TOKEN := "123456:TEST";
            requests_post := fun _ u _ _ => Ret (Sample.ok_response u);
            requests_get := fun _ u _ =>
              Ret {| status_code := 200; reason := "OK"; url := u;
                     json := Ret (PList []) |};
            completions_create := fun _ _ => Ret (Sample.reply_with None);
            builtin_str := Sample.plain_str |} [])
  = Raise (PyExc AttributeError "'list' object has no attribute 'get'")
  /\
  respond
    (fst (get_webhook_info
            {| BOT_TOKEN := "123456:TEST";
               requests_post := fun _ u _ _ => Ret (Sample.ok_response u);
               requests_get := fun _ u _ =>
                 Ret {| status_code := 200; reason := "OK"; url := u;
                        json := Ret (PList []) |};
               completions_create := fun _ _ => Ret (Sample.reply_with None);
               builtin_str := Sample.plain_str |} []))
  = internal_server_error.
Proof.
  exact (get_webhook_info_body_not_object
           {| BOT_TOKEN := "123456:TEST";
              requests_post := fun _ u _ _ => Ret (Sample.ok_response u);
              requests_get := fun _ u _ =>
                Ret {| status_code := 200; reason := "OK"; url := u;
                       json := Ret (PList []) |};
              completions_create := fun _ _ => Ret (Sample.reply_with None);
              builtin_str := Sample.plain_str |} [] _ (PList [])
           eq_refl eq_refl eq_refl eq_refl).
Defined.

(** X15. [set_webhook] catches [RequestException] only: another exception
    of the call, or of decoding the body of an answer that is no 4xx or
    5xx, leaves the handler as it is, so that the cause is not put into a
    "Failed to set webhook" detail. One call is made in any case. *)
Theorem set_webhook_uncaught (w : world) (webhook_url : string) (tr : trace)
    (e : pyexc) :
  is_request_exception e = false ->
  requests_post w tr (set_webhook_url w) (set_webhook_payload webhook_url) 10
  = Raise e
  \/ (exists response,
        requests_post w tr (set_webhook_url w) (set_webhook_payload webhook_url) 10
        = Ret response
        /\ is_4xx_5xx response = false /\ json response = Raise e) ->
  set_webhook webhook_url w tr
  = (Raise e,
     (tr ++ [HttpPost (set_webhook_url w) (set_webhook_payload webhook_url) 10])%list).
Proof.
  intros Hclass Hraise. rewrite set_webhook_run. f_equal.
  destruct Hraise as [-> | (response & -> & H45 & ->)].
  - now rewrite Hclass.
  - destruct (http_error response) as [e'|] eqn:E.
    + assert (is_4xx_5xx response = true) by (apply http_error_iff; eauto).
      congruence.
    + now rewrite Hclass.
Qed.

(** The body of a 200 answer does not decode and the library raises a
    plain [ValueError], as [requests] before 2.27 does; later versions raise
    a [RequestException] there, which is the case of status 500 with the
    detail. *)
Lemma set_webhook_uncaught_value_error :
  respond
    (fst (set_webhook "https://bot.example/webhook"
            {| BOT_TOKEN := "123456:TEST";
               requests_post := fun _ u _ _ =>
                 Ret {| status_code := 200; reason := "OK"; url := u;
                        json := Raise (PyExc OtherException
                                         "Expecting value: line 1 column 1 (char 0)") |};
               requests_get := fun _ u _ => Ret (Sample.ok_response u);
               completions_create := fun _ _ => Ret (Sample.reply_with None);
               builtin_str := Sample.plain_str |} []))
  = internal_server_error.
Proof.
  rewrite (set_webhook_uncaught
             {| BOT_TOKEN := "123456:TEST";
                requests_post := fun _ u _ _ =>
                  Ret {| status_code := 200; reason := "OK"; url := u;
                         json := Raise (PyExc OtherException
                                          "Expecting value: line 1 column 1 (char 0)") |};
                requests_get := fun _ u _ => Ret (Sample.ok_response u);
                completions_create := fun _ _ => Ret (Sample.reply_with None);
                builtin_str := Sample.plain_str |}
             "https://bot.example/webhook" []
             (PyExc OtherException "Expecting value: line 1 column 1 (char 0)")
             eq_refl).
  - reflexivity.
  - right. eexists. split; [reflexivity|]. split; reflexivity.
Defined.

(** ** The FAQ matcher in longer texts *)

Lemma substring_ci_embedded (keyword pre text post : string) :
  substring_ci keyword text -> substring_ci keyword (pre ++ text ++ post).
Proof.
  intros (p & mid & q & -> & Hmid).
  exists (pre ++ p), mid, (q ++ post). split; [|exact Hmid].
  now rewrite !PyStrFacts.append_assoc.
Qed.

(** X16. Text put before and after a message that has an answer never
    takes the answer away: the longer message is answered too, by the same
    table entry or by one that stands earlier in the table. *)
Theorem check_faq_embedded (pre text post answer : string) :
  check_faq text = Some answer ->
  exists i j keyword keyword' answer',
    nth_error FAQ_RESPONSES i = Some (keyword, answer) /\
    nth_error FAQ_RESPONSES j = Some (keyword', answer') /\
    (j <= i)%nat /\
    check_faq (pre ++ text ++ post) = Some answer'.
Proof.
  intros Hfaq.
  pose proof (check_faq_inv text) as Hinv. rewrite Hfaq in Hinv.
  destruct Hinv as (i & keyword & Hi & Hocc & _).
  pose proof (substring_ci_embedded keyword pre text post Hocc) as Hocc'.
  pose proof (check_faq_inv (pre ++ text ++ post)) as Hinv'.
  destruct (check_faq (pre ++ text ++ post)) as [answer'|].
  - destruct Hinv' as (j & keyword' & Hj & _ & Hbefore).
    exists i, j, keyword, keyword', answer'.
    repeat split; try assumption.
    destruct (Nat.le_gt_cases j i) as [Hle | Hgt]; [exact Hle|].
    destruct (Hbefore i keyword answer Hgt Hi Hocc').
  - destruct (Hinv' keyword answer (nth_error_In _ _ Hi) Hocc').
Qed.

(** A question about shipping, quoted in a message that also asks for the
    hours: the answer moves to the earlier entry. *)
Lemma check_faq_embedded_hours :
  exists i j keyword keyword' answer',
    nth_error FAQ_RESPONSES i
    = Some (keyword,
            "We offer free shipping on orders over $50. Standard shipping takes 3-5 business days, and express shipping takes 1-2 business days.") /\
    nth_error FAQ_RESPONSES j = Some (keyword', answer') /\
    (j <= i)%nat /\
    check_faq ("You wrote: " ++ "How much is shipping?" ++ " And your hours?")
    = Some answer'.
Proof.
  exact (check_faq_embedded "You wrote: " "How much is shipping?"
           " And your hours?" _ eq_refl).
Defined.

(** X17. The test [if faq_response:] of [process_message] never drops an
    answer of [check_faq]: every answer of the table is a non-empty
    string, so the test fails exactly when [check_faq] returned [None]. *)
Theorem answered_check_faq (text : string) :
  answered (check_faq text) = check_faq text.
Proof.
  pose proof (check_faq_inv text) as Hinv.
  destruct (check_faq text) as [answer|]; [|reflexivity].
  destruct Hinv as (i & keyword & Hi & _).
  apply nth_error_In in Hi. simpl in Hi.
  repeat (destruct Hi as [Hi | Hi]; [now injection Hi as _ <- |]).
  destruct Hi.
Qed.

(** ** The start of the module *)

(** X18. The module loads exactly when both secrets are set and not
    empty, and then holds their values; an unset or empty bot token is
    reported whatever the other secret is, and an unset or empty key is
    reported once the token is there. *)
Theorem load_credentials_spec (getenv : string -> option string) :
  (forall token key,
      load_credentials getenv = Ret (token, key) <->
      getenv "BOT_TOKEN" = Some token /\ token <> "" /\
      getenv "OPENAI_API_KEY" = Some key /\ key <> "")
  /\
  (getenv "BOT_TOKEN" = None \/ getenv "BOT_TOKEN" = Some "" ->
   load_credentials getenv
   = Raise (PyExc OtherException "BOT_TOKEN environment variable is not set"))
  /\
  (forall token,
      getenv "BOT_TOKEN" = Some token -> token <> "" ->
      getenv "OPENAI_API_KEY" = None \/ getenv "OPENAI_API_KEY" = Some "" ->
      load_credentials getenv
      = Raise (PyExc OtherException
                 "OPENAI_API_KEY environment variable is not set")).
Proof.
  unfold load_credentials. split; [|split].
  - intros token key. split.
    + destruct (getenv "BOT_TOKEN") as [[|c t]|]; try discriminate.
      destruct (getenv "OPENAI_API_KEY") as [[|d k]|]; try discriminate.
      cbn [PyStr.nonempty]. intros [= <- <-].
      repeat split; discriminate.
    + intros (-> & Ht & -> & Hk).
      destruct token; [now destruct Ht|]. destruct key; [now destruct Hk|].
      reflexivity.
  - intros [-> | ->]; reflexivity.
  - intros token -> Ht [-> | ->];
      (destruct token; [now destruct Ht | reflexivity]).
Qed.

(** Both secrets are set. *)
Lemma load_credentials_spec_both_set :
  load_credentials
    (getenv_of [("BOT_TOKEN", "123456:TEST"); ("OPENAI_API_KEY", "sk-test")])
  = Ret ("123456:TEST", "sk-test").
Proof.
  apply (load_credentials_spec
           (getenv_of [("BOT_TOKEN", "123456:TEST"); ("OPENAI_API_KEY", "sk-test")])).
  repeat split; discriminate.
Defined.

(** ** What the matcher and the processor do not look at *)

Lemma lower_length (s : string) :
  String.length (PyStr.lower s) = String.length s.
Proof. induction s as [|c s IH]; simpl; [reflexivity | now rewrite IH]. Qed.

Lemma contains_length (needle hay : string) :
  PyStr.contains needle hay = true ->
  (String.length needle <= String.length hay)%nat.
Proof.
  intros H. apply PyStrFacts.contains_iff in H. destruct H as (pre & post & ->).
  rewrite !PyStrFacts.append_length. lia.
Qed.

(** X19. A message of fewer than five bytes has no answer in the table:
    the shortest keyword has five letters. *)
Theorem check_faq_short_text (text : string) :
  (String.length text < 5)%nat -> check_faq text = None.
Proof.
  intros Hlen.
  pose proof (faq_loop_inv FAQ_RESPONSES (PyStr.lower text)) as Hinv.
  unfold check_faq.
  destruct (faq_loop FAQ_RESPONSES (PyStr.lower text)) as [answer|];
    [|reflexivity].
  destruct Hinv as (i & keyword & Hi & Hin & _).
  apply contains_length in Hin. rewrite lower_length in Hin.
  apply nth_error_In in Hi. simpl in Hi.
  repeat (destruct Hi as [Hi | Hi];
          [injection Hi as <- _; simpl in Hin; lia |]).
  destruct Hi.
Qed.

(** "Hi!" goes to the provider, not to the table. *)
Lemma check_faq_short_text_hi : check_faq "Hi!" = None.
Proof.
  apply (check_faq_short_text "Hi!"). simpl. lia.
Defined.

(** X20. Of an incoming message only [chat], [text] and [from] are read:
    two objects that agree on these three keys are processed alike, so the
    other fields of an update's message (its number, its date, its
    entities) and the order of the keys change nothing. *)
Theorem process_message_reads_three_keys (w : world)
    (items items' : list (string * pyval)) (tr : trace) :
  assoc "chat" items = assoc "chat" items' ->
  assoc "text" items = assoc "text" items' ->
  assoc "from" items = assoc "from" items' ->
  process_message (PDict items) w tr = process_message (PDict items') w tr.
Proof.
  intros Hchat Htext Hfrom.
  unfold process_message. cbn [py_get].
  now rewrite Hchat, Htext, Hfrom.
Qed.

(** The same greeting with and without a message number and a date. *)
Lemma process_message_reads_three_keys_message_id :
  process_message
    (PDict [("message_id", PInt 1365); ("date", PInt 1730628000);
            ("from", PDict [("first_name", PStr "Ana")]);
            ("text", PStr "/start");
            ("chat", PDict [("id", PInt 42)])])
    Sample.online []
  = process_message (Sample.message_of (PInt 42) "/start" "Ana") Sample.online [].
Proof.
  exact (process_message_reads_three_keys Sample.online
           [("message_id", PInt 1365); ("date", PInt 1730628000);
            ("from", PDict [("first_name", PStr "Ana")]);
            ("text", PStr "/start");
            ("chat", PDict [("id", PInt 42)])]
           [("chat", PDict [("id", PInt 42)]);
            ("text", PStr "/start");
            ("from", PDict [("first_name", PStr "Ana")])]
           [] eq_refl eq_refl eq_refl).
Defined.
